(** * Arogya Mitra API: the chat-turn pipeline of [main.py]

    A shallow embedding of [main.py]: the safety keyword check, the user
    resolver [get_or_create_user] and the endpoint [chat], over abstract
    storage and AI collaborators, with the trace of collaborator calls made
    explicit.

    Strings are sequences of code points below 256 (Latin-1); on that range
    [str.strip] and [str.lower] act character by character as defined
    below. *)

From Stdlib Require Import ZArith List String Ascii Bool Lia.
From stdpp Require Import base gmap strings list pretty.

Local Open Scope string_scope.
Local Open Scope list_scope.

(** ** Python's [str] operations used by [main.py] *)

Module Py.

(** [c.isspace()] for a code point below 256: TAB..CR, FS..US, SPACE,
    NEL (0x85) and NBSP (0xA0). *)
Definition isspace (c : ascii) : bool :=
  let n := N_of_ascii c in
  ((9 <=? n) && (n <=? 13) || (28 <=? n) && (n <=? 32)
   || (n =? 133) || (n =? 160))%N.

(** [c.lower()] for a code point below 256: A..Z and the Latin-1 capitals
    0xC0..0xDE (the multiplication sign 0xD7 apart) move up by 32. *)
Definition lower_char (c : ascii) : ascii :=
  let n := N_of_ascii c in
  if ((65 <=? n) && (n <=? 90)
      || (192 <=? n) && (n <=? 222) && negb (n =? 215))%N
  then ascii_of_N (n + 32) else c.

(** [s.lower()] *)
Fixpoint lower (s : string) : string :=
  match s with
  | EmptyString => EmptyString
  | String c s' => String (lower_char c) (lower s')
  end.

(** [s.lstrip()] *)
Fixpoint lstrip (s : string) : string :=
  match s with
  | EmptyString => EmptyString
  | String c s' => if isspace c then lstrip s' else s
  end.

(** [s.rstrip()] *)
Fixpoint rstrip (s : string) : string :=
  match s with
  | EmptyString => EmptyString
  | String c s' =>
      match rstrip s' with
      | EmptyString => if isspace c then EmptyString else String c EmptyString
      | r => String c r
      end
  end.

(** [s.strip()] *)
Definition strip (s : string) : string := rstrip (lstrip s).

(** [s.startswith(p)] *)
Fixpoint startswith (p s : string) : bool :=
  match p, s with
  | EmptyString, _ => true
  | String a p', String b s' => Ascii.eqb a b && startswith p' s'
  | String _ _, EmptyString => false
  end.

(** [k in s] *)
Fixpoint contains (k s : string) : bool :=
  startswith k s ||
  match s with
  | EmptyString => false
  | String _ s' => contains k s'
  end.

(** [bool(s)]: a string is truthy when it is not empty. *)
Definition truthy (s : string) : bool :=
  match s with
  | EmptyString => false
  | String _ _ => true
  end.

End Py.

(** ** Python values, dictionaries and exceptions *)

(** The values a storage row holds ([Dict[str, Any]]), restricted to
    scalars. *)
Inductive Any : Type :=
| PyNone
| PyBool (b : bool)
| PyInt (z : Z)
| PyStr (s : string).

(** [Dict[str, Any]] *)
Abbreviation Dict := (gmap string Any).

(** [bool(existing)] for [existing : Optional[Dict[str, Any]]]: [None] and
    the empty dict are falsy. *)
Definition dict_truthy (existing : option Dict) : bool :=
  match existing with
  | None => false
  | Some d => negb (bool_decide (d = ∅))
  end.

(** The exceptions of the model are instances of [Exception]:
    [fastapi.HTTPException], and every other error a collaborator or a
    schema constructor raises (storage error, generation error, validation
    error), carried with its [str(e)]. *)
Inductive exn : Type :=
| HTTPException (status_code : Z) (detail : string)
| Exception (str : string).

(** [str(e)], as the f-string at main.py:134 renders it. *)
Definition exn_str (e : exn) : string :=
  match e with
  | HTTPException status_code detail => pretty status_code +:+ ": " +:+ detail
  | Exception str => str
  end.

(** A call either returns a value or raises. *)
Inductive outcome (A : Type) : Type :=
| Return (a : A)
| Raise (e : exn).
Arguments Return {A} a.
Arguments Raise {A} e.

(** ** Schemas ([models/schemas.py]) and request models *)

(** [models.schemas.User] is not under src/: the profile type and its
    constructor applied to a dict of keyword arguments ([User_kwargs d] for
    the call that unpacks [d]), which validates and may raise, are
    parameters of the development. *)
Class Schemas : Type := {
  User : Type;
  User_kwargs : Dict -> outcome User;
}.

(** Modelled from the spec: [models.schemas.ChatMessage] is not under src/.
    A chat message belongs to one identifier and has a sender tag and a
    text; these are the three keyword arguments main.py:128 and
    main.py:131 pass. *)
Record ChatMessage : Type := {
  phone_number : string;
  sender : string;
  message_text : string;
}.

Record ChatRequest : Type := {
  user_id : string;
  message : string;
}.

Record ChatResponse : Type := {
  response : string;
}.

(** ** Safety configuration (main.py:33-50) *)

Definition CRITICAL_KEYWORDS : list string :=
  [ "suicide";
    "kill myself";
    "want to die";
    "heart attack";
    "chest pain";
    "can't breathe";
    "unconscious";
    "poison";
    "accident";
    "bleeding heavily" ].

Definition CRITICAL_RESPONSE_MESSAGE : string :=
  "This seems like a critical situation. Please contact emergency services "
  +:+ "immediately by calling 108. This is an AI assistant and not a substitute "
  +:+ "for a medical professional.".

(** The test of main.py:109,
    [any(k in message.lower() for k in CRITICAL_KEYWORDS)]. *)
Definition is_critical (message : string) : bool :=
  existsb (fun k => Py.contains k (Py.lower message)) CRITICAL_KEYWORDS.

(** ** Effects: collaborator calls, logging, exceptions *)

Inductive level : Type := INFO | ERROR.

(** What a turn does to the outside, in order: calls of the storage and AI
    collaborators (with their arguments) and log records. *)
Inductive event `{Schemas} : Type :=
| Call_get_user (user_id : string)
| Call_create_or_update_user (user : User)
| Call_get_chat_history (user_id : string)
| Call_save_chat_message (msg : ChatMessage)
| Call_get_ai_response (user_message : string) (user_profile : User)
                       (chat_history : list Dict)
| Log (lvl : level) (text : string).

(** [services.database_service.DatabaseService] is not under src/: its
    four methods act on the state [W] of the outside world and return or
    raise. *)
Class DatabaseService (W : Type) `{Schemas} : Type := {
  get_user : string -> W -> outcome (option Dict) * W;
  create_or_update_user : User -> W -> outcome unit * W;
  get_chat_history : string -> W -> outcome (list Dict) * W;
  save_chat_message : ChatMessage -> W -> outcome unit * W;
}.

(** [services.gemini_service.GeminiService] is not under src/. *)
Class GeminiService (W : Type) `{Schemas} : Type := {
  get_ai_response : string -> User -> list Dict -> W -> outcome string * W;
}.

Section Effects.
Context `{Schemas} {W : Type}.

(** A computation runs from a state of the world and gives an outcome,
    the new state and the events it produced, oldest first. *)
Definition M (A : Type) : Type := W -> outcome A * W * list event.

Definition ret {A} (a : A) : M A := fun w => (Return a, w, []).

Definition raise {A} (e : exn) : M A := fun w => (Raise e, w, []).

Definition bind {A B} (m : M A) (f : A -> M B) : M B := fun w =>
  match m w with
  | (Return a, w1, t1) => let '(o, w2, t2) := f a w1 in (o, w2, t1 ++ t2)
  | (Raise e, w1, t1) => (Raise e, w1, t1)
  end.

(** [try: body / except Exception as e: handler(e)] *)
Definition try_except {A} (body : M A) (handler : exn -> M A) : M A :=
  fun w =>
  match body w with
  | (Return a, w1, t1) => (Return a, w1, t1)
  | (Raise e, w1, t1) => let '(o, w2, t2) := handler e w1 in (o, w2, t1 ++ t2)
  end.

(** A value or exception computed without touching the world. *)
Definition lift {A} (o : outcome A) : M A := fun w => (o, w, []).

(** [await collaborator.method(args)]: the call is recorded, then run. *)
Definition call {A} (ev : event) (method : W -> outcome A * W) : M A :=
  fun w => let '(o, w') := method w in (o, w', [ev]).

Definition logger_info (text : string) : M unit :=
  fun w => (Return tt, w, [Log INFO text]).

Definition logger_error (text : string) : M unit :=
  fun w => (Return tt, w, [Log ERROR text]).
End Effects.

Notation "'let*' x := m 'in' k" := (bind m (fun x => k))
  (at level 10, x name, m at level 100, k at level 200, only parsing).
Notation "'do*' m 'in' k" := (bind m (fun _ => k))
  (at level 10, m at level 100, k at level 200, only parsing).

(** ** The code of [main.py] *)

Section Main.
Context `{Schemas} {W : Type} `{!DatabaseService W} `{!GeminiService W}.

(** main.py:67-76 *)
Definition get_or_create_user (user_id : string) : M (W := W) User :=
  let* existing := call (Call_get_user user_id) (get_user user_id) in
  if dict_truthy existing then
    match existing with
    | Some existing => lift (User_kwargs existing)
    | None => raise (Exception "argument after ** must be a mapping")
    end
  else
    let* user := lift (User_kwargs {[ "phone_number" := PyStr user_id ]}) in
    do* call (Call_create_or_update_user user) (create_or_update_user user) in
    do* logger_info ("Created new user profile for user_id=" +:+ user_id) in
    ret user.

(** main.py:108-123: the text of the answer. *)
Definition chat_reply (user_id message : string) : M (W := W) string :=
  if is_critical message then
    ret CRITICAL_RESPONSE_MESSAGE
  else
    let* user_profile := get_or_create_user user_id in
    let* history := call (Call_get_chat_history user_id) (get_chat_history user_id) in
    call (Call_get_ai_response message user_profile history)
         (get_ai_response message user_profile history).

(** main.py:125-134: best-effort persistence of both sides. *)
Definition chat_persist (user_id message ai_response_text : string)
  : M (W := W) unit :=
  try_except
    (let m1 := {| phone_number := user_id; sender := "user";
                  message_text := message |} in
     do* call (Call_save_chat_message m1) (save_chat_message m1) in
     let m2 := {| phone_number := user_id; sender := "bot";
                  message_text := ai_response_text |} in
     call (Call_save_chat_message m2) (save_chat_message m2))
    (fun e =>
       logger_error ("Error saving chat messages for user_id=" +:+ user_id
                     +:+ ": " +:+ exn_str e)).

(** main.py:88-136 *)
Definition chat (payload : ChatRequest) : M (W := W) ChatResponse :=
  let user_id := Py.strip (user_id payload) in
  let message := Py.strip (message payload) in
  if negb (Py.truthy user_id) then
    raise (HTTPException 400 "user_id is required.")
  else if negb (Py.truthy message) then
    raise (HTTPException 400 "message cannot be empty.")
  else
    do* logger_info ("Chat message from user_id=" +:+ user_id +:+ ": '"
                    +:+ message +:+ "'") in
    let* ai_response_text := chat_reply user_id message in
    do* chat_persist user_id message ai_response_text in
    ret {| response := ai_response_text |}.
End Main.

(** How the framework answers for the endpoint (FastAPI, outside src/): a
    returned model is sent with status 200, an [HTTPException] with its
    own status code, any other exception as 500 Internal Server Error. *)
Definition http_status (o : outcome ChatResponse) : Z :=
  match o with
  | Return _ => 200
  | Raise (HTTPException status_code _) => status_code
  | Raise (Exception _) => 500
  end.

(** ** Vocabulary of the properties *)

(** Empty or whitespace-only. *)
Fixpoint all_space (s : string) : bool :=
  match s with
  | EmptyString => true
  | String c s' => Py.isspace c && all_space s'
  end.

(** [s] contains [k] as a substring, letter case ignored. *)
Definition icontains (k s : string) : Prop :=
  exists pre mid post, s = pre +:+ mid +:+ post /\ Py.lower mid = Py.lower k.

(** The first character of [s] and the last one are not whitespace. *)
Fixpoint last_char (s : string) (c : ascii) : ascii :=
  match s with
  | EmptyString => c
  | String c' s' => last_char s' c'
  end.

Definition nonspace_ends (s : string) : bool :=
  match s with
  | EmptyString => false
  | String c s' => negb (Py.isspace c) && negb (Py.isspace (last_char s' c))
  end.

Section Events.
Context `{Schemas}.


(** User lookup or creation, history fetch, AI generation: the steps a
    critical turn skips. *)
Definition is_context_or_generation (ev : event) : bool :=
  match ev with
  | Call_get_user _ | Call_create_or_update_user _
  | Call_get_chat_history _ | Call_get_ai_response _ _ _ => true
  | _ => false
  end.

Definition is_generation (ev : event) : bool :=
  match ev with Call_get_ai_response _ _ _ => true | _ => false end.

Definition is_save (ev : event) : bool :=
  match ev with Call_save_chat_message _ => true | _ => false end.


(** The chat messages submitted for writing, in order. *)
Fixpoint saved (t : list event) : list ChatMessage :=
  match t with
  | [] => []
  | Call_save_chat_message m :: t' => m :: saved t'
  | _ :: t' => saved t'
  end.
End Events.

(** The two records of a turn. *)
Definition user_message (user_id message : string) : ChatMessage :=
  {| phone_number := user_id; sender := "user"; message_text := message |}.

Definition bot_message (user_id ai_response_text : string) : ChatMessage :=
  {| phone_number := user_id; sender := "bot";
     message_text := ai_response_text |}.

(** The texts of the log records of a turn (main.py:106 and main.py:134). *)
Definition turn_log (user_id message : string) : string :=
  "Chat message from user_id=" +:+ user_id +:+ ": '" +:+ message +:+ "'".

Definition save_error_log (user_id : string) (e : exn) : string :=
  "Error saving chat messages for user_id=" +:+ user_id +:+ ": "
  +:+ exn_str e.

(** Assumptions on the storage collaborator under which resolving twice is
    meaningful: a lookup does not write, and a profile that was created is
    found again by its identifier and deserialises to itself. *)
Section StorageLaws.
Context `{Schemas} {W : Type} `{!DatabaseService W}.

Definition get_user_read_only : Prop :=
  forall (id : string) (w : W), (get_user id w).2 = w.

Definition created_is_found : Prop :=
  forall (id : string) (u : User) (w w' : W) (r : unit),
    User_kwargs {[ "phone_number" := PyStr id ]} = Return u ->
    create_or_update_user u w = (Return r, w') ->
    exists d, get_user id w' = (Return (Some d), w')
              /\ d <> ∅ /\ User_kwargs d = Return u.
End StorageLaws.

(** ** In-memory collaborators

    A storage stub (profiles by identifier, an append-only message log,
    a script of faults for the writes) and an AI stub with a fixed answer,
    on which the pipeline runs on concrete turns. *)
Module Stub.

(** A profile is its row; the row must carry the identifier as a
    string. *)
#[global] Instance schemas : Schemas := {|
  User := Dict;
  User_kwargs d :=
    match d !! "phone_number" with
    | Some (PyStr _) => Return d
    | _ => Raise (Exception "phone_number: field required")
    end;
|}.

Record world : Type := {
  users : gmap string Dict;
  chat_messages : list ChatMessage;
  save_faults : list (option exn);
  ai_answer : outcome string;
}.

Definition row_of (m : ChatMessage) : Dict :=
  {[ "phone_number" := PyStr (phone_number m);
     "sender" := PyStr (sender m);
     "message_text" := PyStr (message_text m) ]}.

#[global] Instance db_service : DatabaseService world := {|
  get_user id w := (Return (users w !! id), w);
  create_or_update_user u w :=
    match u !! "phone_number" with
    | Some (PyStr id) =>
        (Return tt,
         {| users := <[ id := u ]> (users w);
            chat_messages := chat_messages w;
            save_faults := save_faults w;
            ai_answer := ai_answer w |})
    | _ => (Raise (Exception "storage error: no identifier"), w)
    end;
  get_chat_history id w :=
    (Return (row_of <$>
               List.filter (fun m => String.eqb (phone_number m) id)
                           (chat_messages w)), w);
  save_chat_message m w :=
    match save_faults w with
    | Some e :: faults =>
        (Raise e,
         {| users := users w; chat_messages := chat_messages w;
            save_faults := faults; ai_answer := ai_answer w |})
    | None :: faults =>
        (Return tt,
         {| users := users w; chat_messages := chat_messages w ++ [m];
            save_faults := faults; ai_answer := ai_answer w |})
    | [] =>
        (Return tt,
         {| users := users w; chat_messages := chat_messages w ++ [m];
            save_faults := []; ai_answer := ai_answer w |})
    end;
|}.

#[global] Instance gemini_service : GeminiService world := {|
  get_ai_response _ _ _ w := (ai_answer w, w);
|}.

(** A fresh store whose AI stub answers [o]. *)
Definition fresh (o : outcome string) : world :=
  {| users := ∅; chat_messages := []; save_faults := []; ai_answer := o |}.

(** The same with scripted faults for the next writes. *)
Definition faulty (o : outcome string) (faults : list (option exn)) : world :=
  {| users := ∅; chat_messages := []; save_faults := faults;
     ai_answer := o |}.

(** Two requests of the identifier [u1]. *)
Definition chest_pain : ChatRequest :=
  {| user_id := "u1"; message := "I have chest pain" |}.

Definition diabetes : ChatRequest :=
  {| user_id := " u1 "; message := "What foods help with diabetes?" |}.

End Stub.

(** ** Collaborators with an outage

    A storage whose lookup, profile write and history read fail on demand,
    over an empty store, to run the pipeline on its error paths. *)
Module Outage.

Record world : Type := {
  lookup_fails : bool;
  create_fails : bool;
  history_fails : bool;
}.

Definition storage_down : exn := Exception "storage down".

#[global] Instance db_service : DatabaseService world := {|
  get_user _ w :=
    (if lookup_fails w then Raise storage_down else Return None, w);
  create_or_update_user _ w :=
    (if create_fails w then Raise storage_down else Return tt, w);
  get_chat_history _ w :=
    (if history_fails w then Raise storage_down else Return [], w);
  save_chat_message _ w := (Return tt, w);
|}.

#[global] Instance gemini_service : GeminiService world := {|
  get_ai_response _ _ _ w := (Return "unused", w);
|}.

End Outage.

(** ** The script [check_models.py]

    The script reads the API key from the environment, configures the
    Google library and prints the models that support [generateContent].
    In this module a string is the UTF-8 encoding of a Python [str]: the
    output lines are the bytes the script prints, and the key is sliced by
    code points. The environment and the library are parameters. *)
Module CheckModels.

(** A model as [genai.list_models()] yields it: its name and its
    [supported_generation_methods] attribute, [None] when the attribute is
    missing or is [None]. *)
Record Model : Type := {
  name : string;
  supported_generation_methods : option (list string);
}.

(** What the script runs against: the value of [os.getenv] for the key
    after [load_dotenv()], the behaviour of [genai.configure] on a key, and
    the models the iterator of [genai.list_models()] yields, followed by
    the exception it raises, if it raises. *)
Record Env : Type := {
  GEMINI_API_KEY : option string;
  configure : string -> outcome unit;
  list_models : list Model * option exn;
}.

Inductive event : Type :=
| Print (line : string)
| Call_configure (api_key : string)
| Call_list_models.

(** How the process ends: the script runs to its end, or raises
    [SystemExit(code)]. *)
Inductive status : Type :=
| Completed
| SystemExit (code : Z).

(** A byte that continues a UTF-8 sequence (binary 10xxxxxx); every other
    byte starts a code point. *)
Definition is_continuation (c : ascii) : bool :=
  let b := N_of_ascii c in ((128 <=? b) && (b <=? 191))%N.

(** [s[:n]] on the UTF-8 encoding of [s]: the bytes of the first [n] code
    points. A byte that starts a code point is kept while [n] code points
    have not been started yet; the continuation bytes that follow a kept
    byte belong to its code point and are kept with it. *)
Fixpoint slice_to (n : nat) (s : string) : string :=
  match s with
  | EmptyString => EmptyString
  | String c s' =>
      if is_continuation c then String c (slice_to n s')
      else
        match n with
        | O => EmptyString
        | S n' => String c (slice_to n' s')
        end
  end.

(** [len(s)] on the UTF-8 encoding of [s]: one code point per byte that
    is not a continuation byte. Used to state what [slice_to] keeps. *)
Fixpoint code_points (s : string) : nat :=
  match s with
  | EmptyString => O
  | String c s' =>
      if is_continuation c then code_points s' else S (code_points s')
  end.

Definition newline : string := String (ascii_of_nat 10) EmptyString.

(** check_models.py:30-31:
    [methods = getattr(m, "supported_generation_methods", []) or []] and
    ["generateContent" in methods]. *)
Definition supports_generate_content (m : Model) : bool :=
  let methods :=
    match supported_generation_methods m with
    | Some methods => methods
    | None => []
    end in
  existsb (String.eqb "generateContent") methods.

(** check_models.py:32 *)
Definition model_line (m : Model) : string := "👉 " +:+ name m.

(** The lines of the loop of check_models.py:28-33. *)
Definition model_lines (models : list Model) : list event :=
  flat_map (fun m => if supports_generate_content m
                     then [Print (model_line m)] else [])
           models.

(** check_models.py:36-39 *)
Definition no_models_lines : list event :=
  [ Print (newline +:+ "⚠️  No models found that support generateContent.");
    Print "   Your API key might be valid, but it has no access to Gemini/Generative models.";
    Print "   Solution: In Google Cloud / AI Studio, enable the Generative Language / Gemini API for this project,";
    Print "   ensure billing is enabled, then re-run this script." ].

(** check_models.py:41-42 *)
Definition success_lines : list event :=
  [ Print (newline +:+ "✅ SUCCESS! Copy one of the names above into services/gemini_service.py,");
    Print "   e.g., self.model = genai.GenerativeModel('<model_name_from_above>')." ].

(** check_models.py:45-46 *)
Definition connection_error_lines (e : exn) : list event :=
  [ Print (newline +:+ "❌ Connection Error: " +:+ exn_str e);
    Print "   Check your internet connection and ensure your API Key is correct." ].

(** check_models.py, the whole script. *)
Definition main (env : Env) : list event * status :=
  match GEMINI_API_KEY env with
  | None =>
      ([Print "❌ Error: GEMINI_API_KEY not found in .env file."],
       SystemExit 1)
  | Some api_key =>
      if negb (Py.truthy api_key) then
        ([Print "❌ Error: GEMINI_API_KEY not found in .env file."],
         SystemExit 1)
      else
        let found :=
          [Print ("✅ Found API Key: " +:+ slice_to 5 api_key
                  +:+ "... (hidden)")] in
        match configure env api_key with
        | Raise e =>
            (found ++ [Call_configure api_key;
                       Print ("❌ Config Error: " +:+ exn_str e)],
             SystemExit 1)
        | Return _ =>
            let configured :=
              found ++
              [Call_configure api_key;
               Print "✅ Library configured. Contacting Google...";
               Print (newline +:+
                      "--- AVAILABLE MODELS (supporting generateContent) ---");
               Call_list_models] in
            let '(models, failure) := list_models env in
            match failure with
            | Some e =>
                (configured ++ model_lines models ++ connection_error_lines e,
                 SystemExit 1)
            | None =>
                if existsb supports_generate_content models then
                  (configured ++ model_lines models ++ success_lines,
                   Completed)
                else
                  (configured ++ model_lines models ++ no_models_lines,
                   Completed)
            end
        end
  end.

(** The lines printed, in order. *)
Fixpoint printed (t : list event) : list string :=
  match t with
  | [] => []
  | Print line :: t' => line :: printed t'
  | _ :: t' => printed t'
  end.

Definition is_call (ev : event) : bool :=
  match ev with Print _ => false | _ => true end.

End CheckModels.

(** ** Facts about the string operations *)

Lemma str_app_cons (c : ascii) (a b : string) :
  String c a +:+ b = String c (a +:+ b).
Proof. reflexivity. Qed.

Lemma str_app_nil_l (a : string) : EmptyString +:+ a = a.
Proof. reflexivity. Qed.

Lemma str_app_nil_r (a : string) : a +:+ EmptyString = a.
Proof. induction a as [|c a IH]; [reflexivity|]. now rewrite str_app_cons, IH. Qed.

Lemma str_app_assoc (a b c : string) : (a +:+ b) +:+ c = a +:+ (b +:+ c).
Proof.
  induction a as [|x a IH]; [reflexivity|].
  now rewrite !str_app_cons, IH.
Qed.

Lemma str_app_nonempty (a : string) (c : ascii) (b : string) :
  a +:+ String c b <> EmptyString.
Proof. destruct a; discriminate. Qed.

Lemma truthy_true_iff (s : string) : Py.truthy s = true <-> s <> EmptyString.
Proof. destruct s; simpl; split; congruence. Qed.

Lemma truthy_false_iff (s : string) : Py.truthy s = false <-> s = EmptyString.
Proof. destruct s; simpl; split; congruence. Qed.

(** Lower-casing never turns a character into or out of whitespace. *)
Lemma isspace_lower_char (c : ascii) :
  Py.isspace (Py.lower_char c) = Py.isspace c.
Proof.
  destruct c as [b0 b1 b2 b3 b4 b5 b6 b7].
  destruct b0, b1, b2, b3, b4, b5, b6, b7; reflexivity.
Qed.

Lemma lower_app (a b : string) :
  Py.lower (a +:+ b) = Py.lower a +:+ Py.lower b.
Proof.
  induction a as [|c a IH]; [reflexivity|].
  rewrite str_app_cons. simpl. now rewrite IH.
Qed.

Lemma lower_app_inv (s a b : string) :
  Py.lower s = a +:+ b ->
  exists a' b', s = a' +:+ b' /\ Py.lower a' = a /\ Py.lower b' = b.
Proof.
  revert s. induction a as [|c a IH]; intros s Hs.
  - exists EmptyString, s. auto.
  - destruct s as [|x s]; [discriminate|].
    rewrite str_app_cons in Hs. simpl in Hs.
    injection Hs as Hc Hs.
    destruct (IH s Hs) as (a' & b' & -> & Ha & Hb).
    exists (String x a'), b'. simpl. rewrite Hc, Ha. auto.
Qed.

Lemma startswith_spec (p s : string) :
  Py.startswith p s = true <-> exists post, s = p +:+ post.
Proof.
  revert s. induction p as [|a p IH]; intros s; simpl.
  - split; [intros _; now exists s | reflexivity].
  - destruct s as [|b s].
    + split; [discriminate | intros [post H]; discriminate].
    + rewrite andb_true_iff, Ascii.eqb_eq, IH. split.
      * intros [-> [post ->]]. now exists post.
      * intros [post H]. rewrite str_app_cons in H.
        injection H as -> ->. split; [reflexivity | now exists post].
Qed.

(** [k in s] holds exactly when [s] splits around an occurrence of [k]. *)
Lemma contains_spec (k s : string) :
  Py.contains k s = true <-> exists pre post, s = pre +:+ k +:+ post.
Proof.
  induction s as [|c s IH].
  - cbn [Py.contains]. rewrite orb_false_r, startswith_spec. split.
    + intros [post H]. now exists EmptyString, post.
    + intros (pre & post & H). destruct pre; [now exists post|discriminate].
  - cbn [Py.contains]. rewrite orb_true_iff, startswith_spec, IH. split.
    + intros [[post H] | (pre & post & H)].
      * now exists EmptyString, post.
      * exists (String c pre), post. now rewrite str_app_cons, H.
    + intros (pre & post & H). destruct pre as [|x pre].
      * left. now exists post.
      * right. rewrite str_app_cons in H. injection H as _ H.
        now exists pre, post.
Qed.

(** *** Stripping *)

Lemma lstrip_prefix (s : string) : exists a, s = a +:+ Py.lstrip s.
Proof.
  induction s as [|c s [a IH]]; [now exists EmptyString|].
  simpl. destruct (Py.isspace c).
  - exists (String c a). now rewrite str_app_cons, <- IH.
  - now exists EmptyString.
Qed.

Lemma rstrip_suffix (s : string) : exists b, s = Py.rstrip s +:+ b.
Proof.
  induction s as [|c s [b IH]]; [now exists EmptyString|].
  simpl. destruct (Py.rstrip s) as [|x r] eqn:E.
  - destruct (Py.isspace c).
    + now exists (String c s).
    + exists b. now rewrite str_app_cons, <- IH.
  - exists b. now rewrite str_app_cons, <- IH.
Qed.

(** The stripped string is a substring of the original. *)
Lemma strip_substring (s : string) : exists a b, s = a +:+ Py.strip s +:+ b.
Proof.
  unfold Py.strip. destruct (lstrip_prefix s) as [a Ha].
  destruct (rstrip_suffix (Py.lstrip s)) as [b Hb].
  exists a, b. now rewrite <- Hb.
Qed.

Lemma lstrip_all_space (s : string) :
  Py.lstrip s = EmptyString <-> all_space s = true.
Proof.
  induction s as [|c s IH]; simpl; [tauto|].
  destruct (Py.isspace c); simpl; [exact IH|]. split; discriminate.
Qed.

Lemma rstrip_all_space (s : string) :
  Py.rstrip s = EmptyString <-> all_space s = true.
Proof.
  induction s as [|c s IH]; simpl; [tauto|].
  destruct (Py.rstrip s) as [|x r].
  - destruct (Py.isspace c); simpl.
    + split; [intros _; now apply IH | reflexivity].
    + split; discriminate.
  - split; [discriminate|]. intros H. apply andb_true_iff in H as [_ H].
    now apply IH in H.
Qed.

Lemma lstrip_head (s : string) :
  match Py.lstrip s with
  | EmptyString => True
  | String c _ => Py.isspace c = false
  end.
Proof.
  induction s as [|c s IH]; simpl; [exact I|].
  destruct (Py.isspace c) eqn:E; [exact IH | exact E].
Qed.

(** Stripping leaves nothing exactly for the empty and the whitespace-only
    strings. *)
Lemma strip_empty_iff (s : string) :
  Py.strip s = EmptyString <-> all_space s = true.
Proof.
  unfold Py.strip. rewrite rstrip_all_space. split.
  - intros H. apply lstrip_all_space.
    pose proof (lstrip_head s) as Hh.
    destruct (Py.lstrip s) as [|c r]; [reflexivity|].
    simpl in H. rewrite Hh in H. discriminate.
  - intros H. apply lstrip_all_space in H. now rewrite H.
Qed.

Lemma lstrip_keeps (pre : string) (c : ascii) (rest : string) :
  Py.isspace c = false ->
  exists pre', Py.lstrip (pre +:+ String c rest) = pre' +:+ String c rest.
Proof.
  intros Hc. induction pre as [|x pre IH].
  - exists EmptyString. simpl. now rewrite Hc.
  - rewrite str_app_cons. simpl. destruct (Py.isspace x).
    + exact IH.
    + now exists (String x pre).
Qed.

Lemma rstrip_keeps (s : string) (c : ascii) (post : string) :
  Py.isspace c = false ->
  exists post', Py.rstrip (s +:+ String c post) = s +:+ String c post'.
Proof.
  intros Hc. induction s as [|x s [post' IH]].
  - exists (Py.rstrip post). change (EmptyString +:+ String c post)
      with (String c post). simpl.
    destruct (Py.rstrip post); [now rewrite Hc | reflexivity].
  - exists post'. rewrite !str_app_cons. simpl. rewrite IH.
    destruct (s +:+ String c post') eqn:E; [|reflexivity].
    now apply str_app_nonempty in E.
Qed.

Lemma nonspace_ends_split (m : string) :
  nonspace_ends m = true ->
  exists c0 r, m = String c0 r /\ Py.isspace c0 = false /\
    exists m' c1, m = m' +:+ String c1 EmptyString /\ Py.isspace c1 = false.
Proof.
  destruct m as [|c0 r]; [discriminate|]. simpl.
  intros H. apply andb_true_iff in H as [H0 H1].
  apply negb_true_iff in H0, H1.
  exists c0, r. split; [reflexivity|]. split; [exact H0|].
  clear H0. revert c0 H1. induction r as [|x r IH]; intros c0 H1.
  - now exists EmptyString, c0.
  - simpl in H1. destruct (IH x H1) as (m' & c1 & E & Hc1).
    exists (String c0 m'), c1. now rewrite str_app_cons, <- E.
Qed.

(** An occurrence whose two ends are not whitespace survives stripping. *)
Lemma strip_keeps (pre mid post : string) :
  nonspace_ends mid = true ->
  exists pre' post', Py.strip (pre +:+ mid +:+ post) = pre' +:+ mid +:+ post'.
Proof.
  intros H. destruct (nonspace_ends_split mid H)
    as (c0 & r & E0 & H0 & m' & c1 & E1 & H1).
  unfold Py.strip.
  assert (exists pre', Py.lstrip (pre +:+ mid +:+ post) = pre' +:+ mid +:+ post)
    as [pre' ->].
  { rewrite E0, str_app_cons. now apply lstrip_keeps. }
  clear E0 H0. subst mid.
  destruct (rstrip_keeps (pre' +:+ m') c1 post H1) as [post' Hr].
  exists pre', post'.
  rewrite !str_app_assoc, !str_app_cons, !str_app_nil_l, <- !str_app_assoc.
  exact Hr.
Qed.

Lemma last_char_lower (s : string) (c : ascii) :
  last_char (Py.lower s) (Py.lower_char c) = Py.lower_char (last_char s c).
Proof. revert c. induction s as [|x s IH]; intros c; simpl; auto. Qed.

Lemma nonspace_ends_lower (s : string) :
  nonspace_ends (Py.lower s) = nonspace_ends s.
Proof.
  destruct s as [|c s]; [reflexivity|]. simpl.
  now rewrite last_char_lower, !isspace_lower_char.
Qed.

(** *** The keyword test *)

Lemma keywords_lowercase :
  Forall (fun k => Py.lower k = k) CRITICAL_KEYWORDS.
Proof. repeat constructor. Qed.

Lemma keywords_nonspace_ends :
  Forall (fun k => nonspace_ends k = true) CRITICAL_KEYWORDS.
Proof. repeat constructor. Qed.

Lemma icontains_lower (k s : string) :
  icontains k s <-> Py.contains (Py.lower k) (Py.lower s) = true.
Proof.
  rewrite contains_spec. split.
  - intros (pre & mid & post & -> & H).
    exists (Py.lower pre), (Py.lower post). now rewrite !lower_app, H.
  - intros (a & b & H).
    apply lower_app_inv in H as (pre & rest & -> & _ & H).
    apply lower_app_inv in H as (mid & post & -> & H & _).
    now exists pre, mid, post.
Qed.

(** The test of the code is containment of a keyword, letter case
    ignored. *)
Lemma is_critical_iff (message : string) :
  is_critical message = true <->
  exists k, In k CRITICAL_KEYWORDS /\ icontains k message.
Proof.
  unfold is_critical. rewrite existsb_exists.
  pose proof keywords_lowercase as Hl. rewrite Forall_forall in Hl.
  split; intros (k & Hk & H); exists k; (split; [exact Hk|]).
  - apply icontains_lower. rewrite Hl; [exact H|]. now apply list_elem_of_In.
  - apply icontains_lower in H. rewrite Hl in H; [exact H|].
    now apply list_elem_of_In.
Qed.

(** Stripping the message does not change the verdict. *)
Lemma is_critical_strip (message : string) :
  is_critical (Py.strip message) = is_critical message.
Proof.
  apply eq_true_iff_eq. rewrite !is_critical_iff.
  pose proof keywords_nonspace_ends as Hn. rewrite Forall_forall in Hn.
  split; intros (k & Hk & pre & mid & post & E & H); exists k;
    (split; [exact Hk|]).
  - destruct (strip_substring message) as (a & b & Hs).
    exists (a +:+ pre), mid, (post +:+ b). split; [|exact H].
    rewrite Hs at 1. rewrite E. now rewrite !str_app_assoc.
  - assert (nonspace_ends mid = true) as Hm.
    { rewrite <- nonspace_ends_lower, H, nonspace_ends_lower.
      apply Hn. now apply list_elem_of_In. }
    destruct (strip_keeps pre mid post Hm) as (pre' & post' & Hs).
    exists pre', mid, post'. now rewrite E, Hs.
Qed.

(** ** The pipeline *)

Section Pipeline.
Context `{Schemas} {W : Type} `{!DatabaseService W} `{!GeminiService W}.
Implicit Types (w : W) (t : list event) (e : exn).

(** The persistence step never raises; its events depend on which write
    fails first. *)
Lemma chat_persist_run (uid msg text : string) (w : W) :
  chat_persist uid msg text w =
  match save_chat_message (user_message uid msg) w with
  | (Raise e, w1) =>
      (Return tt, w1,
       [Call_save_chat_message (user_message uid msg);
        Log ERROR (save_error_log uid e)])
  | (Return _, w1) =>
      match save_chat_message (bot_message uid text) w1 with
      | (Raise e, w2) =>
          (Return tt, w2,
           [Call_save_chat_message (user_message uid msg);
            Call_save_chat_message (bot_message uid text);
            Log ERROR (save_error_log uid e)])
      | (Return _, w2) =>
          (Return tt, w2,
           [Call_save_chat_message (user_message uid msg);
            Call_save_chat_message (bot_message uid text)])
      end
  end.
Proof.
  unfold chat_persist, try_except, bind, call, logger_error.
  fold (user_message uid msg) (bot_message uid text).
  destruct (save_chat_message (user_message uid msg) w) as [[[]|e] w1];
    [|reflexivity].
  destruct (save_chat_message (bot_message uid text) w1) as [[[]|e] w2];
    reflexivity.
Qed.

Lemma chat_persist_returns (uid msg text : string) (w : W) :
  exists w' t, chat_persist uid msg text w = (Return tt, w', t).
Proof.
  rewrite chat_persist_run.
  destruct (save_chat_message (user_message uid msg) w) as [[[]|e] w1];
    [|eauto].
  destruct (save_chat_message (bot_message uid text) w1) as [[[]|e] w2];
    eauto.
Qed.

(** A turn with a valid request: the log record, the answer, the
    persistence step. *)
Lemma chat_run (payload : ChatRequest) (w : W) :
  Py.strip (user_id payload) <> EmptyString ->
  Py.strip (message payload) <> EmptyString ->
  chat payload w =
  let uid := Py.strip (user_id payload) in
  let msg := Py.strip (message payload) in
  match chat_reply uid msg w with
  | (Raise e, w1, t1) => (Raise e, w1, Log INFO (turn_log uid msg) :: t1)
  | (Return text, w1, t1) =>
      let '(_, w2, t2) := chat_persist uid msg text w1 in
      (Return {| response := text |}, w2,
       Log INFO (turn_log uid msg) :: t1 ++ t2)
  end.
Proof.
  intros Hu Hm. apply truthy_true_iff in Hu, Hm.
  unfold chat. rewrite Hu, Hm. cbn [negb].
  unfold bind at 1, logger_info. unfold bind at 1. cbn zeta.
  fold (turn_log (Py.strip (user_id payload)) (Py.strip (message payload))).
  destruct (chat_reply _ _ w) as [[[text|e] w1] t1]; [|reflexivity].
  unfold bind, ret.
  destruct (chat_persist_returns (Py.strip (user_id payload))
              (Py.strip (message payload)) text w1) as (w2 & t2 & ->).
  now rewrite app_nil_r.
Qed.

Lemma get_or_create_user_run (uid : string) (w : W) :
  get_or_create_user uid w =
  match get_user uid w with
  | (Raise e, w1) => (Raise e, w1, [Call_get_user uid])
  | (Return existing, w1) =>
      if dict_truthy existing then
        match existing with
        | Some d => (User_kwargs d, w1, [Call_get_user uid])
        | None => (Raise (Exception "argument after ** must be a mapping"),
                   w1, [Call_get_user uid])
        end
      else
        match User_kwargs {[ "phone_number" := PyStr uid ]} with
        | Raise e => (Raise e, w1, [Call_get_user uid])
        | Return u =>
            match create_or_update_user u w1 with
            | (Raise e, w2) =>
                (Raise e, w2,
                 [Call_get_user uid; Call_create_or_update_user u])
            | (Return _, w2) =>
                (Return u, w2,
                 [Call_get_user uid; Call_create_or_update_user u;
                  Log INFO ("Created new user profile for user_id=" +:+ uid)])
            end
        end
  end.
Proof.
  unfold get_or_create_user, bind, call, lift, raise, logger_info, ret.
  destruct (get_user uid w) as [[existing|e] w1]; [|reflexivity].
  destruct (dict_truthy existing).
  - destruct existing as [d|]; [|reflexivity].
    destruct (User_kwargs d); reflexivity.
  - destruct (User_kwargs _) as [u|e]; [|reflexivity].
    destruct (create_or_update_user u w1) as [[[]|e] w2]; reflexivity.
Qed.

(** The resolver writes no chat message and asks the AI nothing. *)
Lemma get_or_create_user_events (uid : string) (w : W) :
  forallb (fun ev => negb (is_save ev) && negb (is_generation ev))
          (get_or_create_user uid w).2 = true.
Proof.
  rewrite get_or_create_user_run.
  destruct (get_user uid w) as [[existing|e] w1]; [|reflexivity].
  destruct (dict_truthy existing).
  - destruct existing; reflexivity.
  - destruct (User_kwargs _) as [u|e]; [|reflexivity].
    destruct (create_or_update_user u w1) as [[[]|e] w2]; reflexivity.
Qed.

Lemma chat_reply_critical (uid msg : string) (w : W) :
  is_critical msg = true ->
  chat_reply uid msg w = (Return CRITICAL_RESPONSE_MESSAGE, w, []).
Proof. intros Hc. unfold chat_reply. now rewrite Hc. Qed.

Lemma chat_reply_normal (uid msg : string) (w : W) :
  is_critical msg = false ->
  chat_reply uid msg w =
  match get_or_create_user uid w with
  | (Raise e, w1, t1) => (Raise e, w1, t1)
  | (Return profile, w1, t1) =>
      match get_chat_history uid w1 with
      | (Raise e, w2) => (Raise e, w2, t1 ++ [Call_get_chat_history uid])
      | (Return history, w2) =>
          let '(o, w3) := get_ai_response msg profile history w2 in
          (o, w3, t1 ++ [Call_get_chat_history uid;
                         Call_get_ai_response msg profile history])
      end
  end.
Proof.
  intros Hc. unfold chat_reply. rewrite Hc. unfold bind, call.
  destruct (get_or_create_user uid w) as [[[profile|e] w1] t1];
    [|reflexivity].
  destruct (get_chat_history uid w1) as [[history|e] w2]; [|reflexivity].
  destruct (get_ai_response msg profile history w2) as [[text|e] w3];
    reflexivity.
Qed.

Lemma keyword_makes_critical (k raw : string) :
  In k CRITICAL_KEYWORDS -> icontains k raw ->
  is_critical (Py.strip raw) = true /\ Py.strip raw <> EmptyString.
Proof.
  intros Hk Hc.
  assert (is_critical (Py.strip raw) = true) as Hs.
  { rewrite is_critical_strip. apply is_critical_iff. eauto. }
  split; [exact Hs|]. intros E. rewrite E in Hs. discriminate.
Qed.

Lemma no_keyword_not_critical (raw : string) :
  (forall k, In k CRITICAL_KEYWORDS -> ~ icontains k raw) ->
  is_critical (Py.strip raw) = false.
Proof.
  intros Hn. rewrite is_critical_strip.
  destruct (is_critical raw) eqn:E; [|reflexivity].
  apply is_critical_iff in E as (k & Hk & Hc). now destruct (Hn k Hk).
Qed.


Lemma saved_app (a b : list event) : saved (a ++ b) = saved a ++ saved b.
Proof.
  induction a as [|ev a IH]; [reflexivity|].
  destruct ev; simpl; now rewrite IH.
Qed.


Lemma no_save_saved (t : list event) :
  forallb (fun ev => negb (is_save ev) && negb (is_generation ev)) t = true ->
  saved t = [] /\ forallb (fun ev => negb (is_generation ev)) t = true.
Proof.
  induction t as [|ev t IH]; [auto|].
  simpl. intros Hf. apply andb_true_iff in Hf as [Hev Ht].
  destruct (IH Ht) as [Hs Hg]. destruct ev; try discriminate; simpl; auto.
Qed.

(** Where a trace has an event satisfying [P], and nothing before or
    after it does, it can be split around such an event in one way only. *)
Lemma split_at_unique {A} (P : A -> bool) (l1 : list A) (x : A)
      (l2 pre : list A) (y : A) (post : list A) :
  forallb (fun a => negb (P a)) l1 = true ->
  forallb (fun a => negb (P a)) l2 = true ->
  P y = true ->
  l1 ++ x :: l2 = pre ++ y :: post ->
  pre = l1 /\ y = x /\ post = l2.
Proof.
  intros H1 H2 Hy. revert pre. induction l1 as [|a l1 IH]; intros pre E.
  - destruct pre as [|p pre]; simpl in E.
    + injection E as -> ->. auto.
    + injection E as -> ->. rewrite forallb_app in H2.
      apply andb_true_iff in H2 as [_ H2]. simpl in H2. rewrite Hy in H2.
      discriminate.
  - simpl in H1. apply andb_true_iff in H1 as [Ha H1].
    destruct pre as [|p pre]; simpl in E.
    + injection E as -> _. rewrite Hy in Ha. discriminate.
    + injection E as -> E. destruct (IH H1 pre E) as (-> & -> & ->). auto.
Qed.

Lemma no_split {A} (P : A -> bool) (l pre : list A) (y : A)
      (post : list A) :
  forallb (fun a => negb (P a)) l = true ->
  P y = true -> l <> pre ++ y :: post.
Proof.
  intros Hl Hy ->. rewrite forallb_app in Hl.
  apply andb_true_iff in Hl as [_ Hl]. simpl in Hl. rewrite Hy in Hl.
  discriminate.
Qed.

Lemma chat_persist_events (uid msg text : string) (w : W) :
  forallb (fun ev => negb (is_generation ev))
          (chat_persist uid msg text w).2 = true.
Proof.
  rewrite chat_persist_run.
  destruct (save_chat_message (user_message uid msg) w) as [[[]|e] w1];
    [|reflexivity].
  destruct (save_chat_message (bot_message uid text) w1) as [[[]|e] w2];
    reflexivity.
Qed.

Lemma chat_reply_saved (uid msg : string) (w : W) :
  saved (chat_reply uid msg w).2 = [].
Proof.
  destruct (is_critical msg) eqn:Hc.
  - now rewrite chat_reply_critical.
  - rewrite chat_reply_normal by exact Hc.
    pose proof (get_or_create_user_events uid w) as He.
    destruct (get_or_create_user uid w) as [[[profile|e] w1] t1];
      apply no_save_saved in He as [He _]; [|exact He].
    destruct (get_chat_history uid w1) as [[history|e] w2].
    + destruct (get_ai_response msg profile history w2) as [o w3].
      cbn [snd]. rewrite saved_app. simpl in He. now rewrite He.
    + cbn [snd]. rewrite saved_app. simpl in He. now rewrite He.
Qed.

(** ** The claims *)

(** C1: a request with a non-empty trimmed identifier whose message
    contains a crisis keyword, letter case ignored, is answered with
    exactly the fixed safety message, and the turn makes no user lookup or
    creation, no history fetch and no AI-generation call. *)
Theorem crisis_turn_returns_safety_message
    (payload : ChatRequest) (w : W) (k : string) :
  In k CRITICAL_KEYWORDS ->
  icontains k (message payload) ->
  Py.strip (user_id payload) <> EmptyString ->
  exists w' t,
    chat payload w
    = (Return {| response := CRITICAL_RESPONSE_MESSAGE |}, w', t)
    /\ forallb (fun ev => negb (is_context_or_generation ev)) t = true.
Proof.
  intros Hk Hc Hu. destruct (keyword_makes_critical _ _ Hk Hc) as [Hcrit Hm].
  rewrite (chat_run payload w Hu Hm). cbn zeta.
  rewrite (chat_reply_critical _ _ w Hcrit), chat_persist_run.
  destruct (save_chat_message (user_message _ _) w) as [[[]|e] w1];
    [|eexists _, _; split; reflexivity].
  destruct (save_chat_message (bot_message _ _) w1) as [[[]|e] w2];
    eexists _, _; split; reflexivity.
Qed.

(** C2: for a request with non-empty trimmed identifier and message and
    no crisis keyword in the message, the returned text is exactly the
    text the AI collaborator returns for the trimmed message, the resolved
    profile and the fetched history. *)
Theorem normal_turn_returns_ai_text
    (payload : ChatRequest) (w w1 w2 w3 : W) (t1 : list event)
    (profile : User) (history : list Dict) (text : string) :
  Py.strip (user_id payload) <> EmptyString ->
  Py.strip (message payload) <> EmptyString ->
  (forall k, In k CRITICAL_KEYWORDS -> ~ icontains k (message payload)) ->
  get_or_create_user (Py.strip (user_id payload)) w
  = (Return profile, w1, t1) ->
  get_chat_history (Py.strip (user_id payload)) w1 = (Return history, w2) ->
  get_ai_response (Py.strip (message payload)) profile history w2
  = (Return text, w3) ->
  exists w' t,
    chat payload w = (Return {| response := text |}, w', t)
    /\ In (Call_get_ai_response (Py.strip (message payload)) profile history)
          t.
Proof.
  intros Hu Hm Hn Hr Hh Hg.
  rewrite (chat_run payload w Hu Hm). cbn zeta.
  rewrite (chat_reply_normal _ _ w (no_keyword_not_critical _ Hn)).
  rewrite Hr, Hh, Hg.
  destruct (chat_persist_returns (Py.strip (user_id payload))
              (Py.strip (message payload)) text w3) as (w' & t & ->).
  eexists _, _. split; [reflexivity|].
  right. apply in_or_app. left. apply in_or_app. right. simpl. auto.
Qed.

(** C3: when the identifier or the message is empty or whitespace-only,
    the endpoint raises an HTTP 400 (client) error and makes no call to
    any collaborator: no event at all is produced and the world is left
    as it was. *)
Theorem blank_input_is_rejected (payload : ChatRequest) (w : W) :
  all_space (user_id payload) = true \/ all_space (message payload) = true ->
  exists detail,
    chat payload w = (Raise (HTTPException 400 detail), w, [])
    /\ http_status (Raise (HTTPException 400 detail)) = 400%Z.
Proof.
  intros Hb. unfold chat.
  destruct (Py.truthy (Py.strip (user_id payload))) eqn:Eu; cbn [negb].
  - destruct Hb as [Hb|Hb].
    + apply strip_empty_iff in Hb. rewrite Hb in Eu. discriminate.
    + apply strip_empty_iff in Hb. rewrite Hb. cbn.
      eexists. split; reflexivity.
  - eexists. split; reflexivity.
Qed.

(** C4: the resolver returns the stored profile, deserialised and with no
    write, when storage has one for the identifier; otherwise it builds
    the profile from the identifier alone, asks storage to persist it and
    returns it. Hence, when lookups do not write and a created profile is
    found again, resolving the same identifier a second time yields the
    same profile and writes nothing. *)
Theorem resolver_finds_or_creates :
  (forall (uid : string) (w w1 : W) (d : Dict) (u : User),
      get_user uid w = (Return (Some d), w1) ->
      d <> ∅ ->
      User_kwargs d = Return u ->
      get_or_create_user uid w = (Return u, w1, [Call_get_user uid]))
  /\ (forall (uid : string) (w w1 w2 : W) (u : User) (r : unit),
      get_user uid w = (Return None, w1) ->
      User_kwargs {[ "phone_number" := PyStr uid ]} = Return u ->
      create_or_update_user u w1 = (Return r, w2) ->
      get_or_create_user uid w
      = (Return u, w2,
         [Call_get_user uid; Call_create_or_update_user u;
          Log INFO ("Created new user profile for user_id=" +:+ uid)]))
  /\ (get_user_read_only -> created_is_found ->
      forall (uid : string) (w w1 : W) (u : User) (t1 : list event),
        get_or_create_user uid w = (Return u, w1, t1) ->
        get_or_create_user uid w1 = (Return u, w1, [Call_get_user uid])).
Proof.
  assert (forall (uid : string) (w w1 : W) (d : Dict) (u : User),
      get_user uid w = (Return (Some d), w1) ->
      d <> ∅ ->
      User_kwargs d = Return u ->
      get_or_create_user uid w = (Return u, w1, [Call_get_user uid]))
    as Hfound.
  { intros uid w w1 d u Hg Hd Hu. rewrite get_or_create_user_run, Hg.
    unfold dict_truthy. rewrite bool_decide_eq_false_2 by exact Hd.
    cbn [negb]. now rewrite Hu. }
  split; [exact Hfound|]. split.
  - intros uid w w1 w2 u r Hg Hu Hc.
    rewrite get_or_create_user_run, Hg. cbn [dict_truthy].
    now rewrite Hu, Hc.
  - intros Hro Hcf uid w w1 u t1 Hr.
    rewrite get_or_create_user_run in Hr.
    pose proof (Hro uid w) as Hw.
    destruct (get_user uid w) as [[existing|e] w0] eqn:Hg; [|discriminate].
    cbn [snd] in Hw. subst w0.
    destruct (dict_truthy existing) eqn:Ht.
    + destruct existing as [d|]; [|discriminate].
      injection Hr as Hu <- _.
      apply (Hfound uid w w d u Hg); [|exact Hu].
      intros ->. unfold dict_truthy in Ht.
      rewrite bool_decide_eq_true_2 in Ht by reflexivity. discriminate.
    + destruct (User_kwargs _) as [u0|e] eqn:Hu; [|discriminate].
      destruct (create_or_update_user u0 w) as [[r|e] w2] eqn:Hc;
        [|discriminate].
      injection Hr as -> -> _.
      destruct (Hcf uid u w w1 r Hu Hc) as (d & Hg' & Hd & Hu').
      exact (Hfound uid w1 w1 d u Hg' Hd Hu').
Qed.

(** C5: when a turn has computed its response text and a chat-message
    write raises (the first one, or the second after the first went
    through), the endpoint still returns that text; the exception is
    logged, not propagated. *)
Theorem persistence_failure_keeps_response
    (payload : ChatRequest) (w w1 : W) (t1 : list event) (text : string)
    (e : exn) :
  Py.strip (user_id payload) <> EmptyString ->
  Py.strip (message payload) <> EmptyString ->
  chat_reply (Py.strip (user_id payload)) (Py.strip (message payload)) w
  = (Return text, w1, t1) ->
  ((exists w2,
       save_chat_message
         (user_message (Py.strip (user_id payload))
                       (Py.strip (message payload))) w1 = (Raise e, w2))
   \/ (exists r w2 w3,
       save_chat_message
         (user_message (Py.strip (user_id payload))
                       (Py.strip (message payload))) w1 = (Return r, w2)
       /\ save_chat_message
            (bot_message (Py.strip (user_id payload)) text) w2
          = (Raise e, w3))) ->
  exists w' t0,
    chat payload w
    = (Return {| response := text |}, w',
       t0 ++ [Log ERROR (save_error_log (Py.strip (user_id payload)) e)]).
Proof.
  intros Hu Hm Hr Hf. rewrite (chat_run payload w Hu Hm). cbn zeta.
  rewrite Hr, chat_persist_run.
  destruct Hf as [[w2 H1]|(r & w2 & w3 & H1 & H2)].
  - rewrite H1. exists w2. eexists (_ :: t1 ++ [_]).
    simpl. now rewrite <- !app_assoc.
  - rewrite H1, H2. exists w3. eexists (_ :: t1 ++ [_; _]).
    simpl. now rewrite <- !app_assoc.
Qed.


(** C7: in a turn that calls the AI, the history it passes is what the
    history read returned on the world as the resolver left it, and
    everything before the AI call is the turn's log record, the resolver's
    events and that read: no chat message has been written by then, so
    both writes of the turn come after the read. *)
Theorem history_is_read_before_the_writes
    (payload : ChatRequest) (w w' : W) (o : outcome ChatResponse)
    (pre post : list event) (m : string) (profile : User)
    (history : list Dict) :
  chat payload w
  = (o, w', pre ++ Call_get_ai_response m profile history :: post) ->
  let uid := Py.strip (user_id payload) in
  saved pre = []
  /\ m = Py.strip (message payload)
  /\ exists w1 w2 t1,
      get_or_create_user uid w = (Return profile, w1, t1)
      /\ get_chat_history uid w1 = (Return history, w2)
      /\ pre = Log INFO (turn_log uid m) :: t1 ++ [Call_get_chat_history uid].
Proof.
  intros Hc uid. subst uid.
  destruct (Py.truthy (Py.strip (user_id payload))) eqn:Eu.
  2:{ unfold chat in Hc. rewrite Eu in Hc. injection Hc as _ _ Hc.
      now destruct pre. }
  destruct (Py.truthy (Py.strip (message payload))) eqn:Em.
  2:{ unfold chat in Hc. rewrite Eu, Em in Hc. injection Hc as _ _ Hc.
      now destruct pre. }
  apply truthy_true_iff in Eu, Em.
  rewrite (chat_run payload w Eu Em) in Hc. cbn zeta in Hc.
  set (uid := Py.strip (user_id payload)) in *.
  set (msg := Py.strip (message payload)) in *.
  destruct (is_critical msg) eqn:Ecrit.
  { rewrite (chat_reply_critical uid msg w Ecrit) in Hc.
    pose proof (chat_persist_events uid msg CRITICAL_RESPONSE_MESSAGE w)
      as Hp.
    destruct (chat_persist uid msg _ w) as [[o2 w2] t2]. cbn [snd] in Hp.
    injection Hc as _ _ Hc. exfalso.
    refine (no_split is_generation _ pre _ post _ _ Hc);
      [simpl; exact Hp | reflexivity]. }
  rewrite (chat_reply_normal uid msg w Ecrit) in Hc.
  pose proof (get_or_create_user_events uid w) as He.
  destruct (get_or_create_user uid w) as [[[p|e] w1] t1]; cbn [snd] in He;
    apply no_save_saved in He as [Hsv Hgen].
  2:{ injection Hc as _ _ Hc. exfalso.
      refine (no_split is_generation _ pre _ post _ _ Hc);
        [simpl; exact Hgen | reflexivity]. }
  destruct (get_chat_history uid w1) as [[h|e] w2] eqn:Hh.
  2:{ injection Hc as _ _ Hc. exfalso.
      refine (no_split is_generation _ pre _ post _ _ Hc); [|reflexivity].
      simpl. rewrite forallb_app, Hgen. reflexivity. }
  assert (forall rest,
    Log INFO (turn_log uid msg)
      :: (t1 ++ [Call_get_chat_history uid; Call_get_ai_response msg p h])
         ++ rest
    = (Log INFO (turn_log uid msg) :: t1 ++ [Call_get_chat_history uid])
      ++ Call_get_ai_response msg p h :: rest) as Hshape.
  { intros rest. simpl. now rewrite <- !app_assoc. }
  assert (forallb (fun a => negb (is_generation a))
            (Log INFO (turn_log uid msg) :: t1 ++ [Call_get_chat_history uid])
          = true) as Hl1.
  { simpl. rewrite forallb_app, Hgen. reflexivity. }
  assert (forall rest,
    forallb (fun a => negb (is_generation a)) rest = true ->
    Log INFO (turn_log uid msg)
      :: (t1 ++ [Call_get_chat_history uid; Call_get_ai_response msg p h])
         ++ rest
    = pre ++ Call_get_ai_response m profile history :: post ->
    saved pre = [] /\ m = msg /\
    exists w1' w2' t1',
      (Return p, w1, t1) = (Return profile, w1', t1')
      /\ get_chat_history uid w1' = (Return history, w2')
      /\ pre = Log INFO (turn_log uid m) :: t1' ++ [Call_get_chat_history uid])
    as Hfin.
  { intros rest Hrest E. rewrite Hshape in E.
    destruct (split_at_unique is_generation _ _ _ pre
                (Call_get_ai_response m profile history) post Hl1 Hrest
                eq_refl E) as (-> & Hy & _).
    injection Hy as -> -> ->.
    split; [|split; [reflexivity|]].
    - simpl. rewrite saved_app, Hsv. reflexivity.
    - exists w1, w2, t1. auto. }
  destruct (get_ai_response msg p h w2) as [[text|e] w3].
  - pose proof (chat_persist_events uid msg text w3) as Hp.
    destruct (chat_persist uid msg text w3) as [[o2 w4] t2].
    cbn [snd] in Hp. injection Hc as _ _ Hc.
    exact (Hfin t2 Hp Hc).
  - injection Hc as _ _ Hc. apply (Hfin [] eq_refl).
    now rewrite app_nil_r.
Qed.

(** C8: in a non-critical turn whose user resolution and history read
    succeed, if the AI collaborator raises, the endpoint raises that same
    exception (answered as a 500 server error unless it is an
    HTTPException) and returns no response. Nothing runs after the failed
    call: the events of the turn are its log record, the resolver's events,
    the history read and the AI call, so no chat message is written, and
    the only write the turn can have made is the resolver's creation of the
    profile. The world is the one that call left. *)
Theorem generation_failure_fails_the_turn
    (payload : ChatRequest) (w w1 w2 w3 : W) (t1 : list event)
    (profile : User) (history : list Dict) (e : exn) :
  Py.strip (user_id payload) <> EmptyString ->
  Py.strip (message payload) <> EmptyString ->
  (forall k, In k CRITICAL_KEYWORDS -> ~ icontains k (message payload)) ->
  get_or_create_user (Py.strip (user_id payload)) w
  = (Return profile, w1, t1) ->
  get_chat_history (Py.strip (user_id payload)) w1 = (Return history, w2) ->
  get_ai_response (Py.strip (message payload)) profile history w2
  = (Raise e, w3) ->
  exists t,
    chat payload w = (Raise e, w3, t)
    /\ t = Log INFO (turn_log (Py.strip (user_id payload))
                              (Py.strip (message payload)))
           :: t1 ++ [Call_get_chat_history (Py.strip (user_id payload));
                     Call_get_ai_response (Py.strip (message payload))
                                          profile history]
    /\ saved t = []
    /\ (forall str, e = Exception str -> http_status (Raise e) = 500%Z).
Proof.
  intros Hu Hm Hn Hr Hh Hg.
  rewrite (chat_run payload w Hu Hm). cbn zeta.
  rewrite (chat_reply_normal _ _ w (no_keyword_not_critical _ Hn)).
  rewrite Hr, Hh, Hg. eexists. split; [reflexivity|].
  split; [reflexivity|]. split.
  - pose proof (get_or_create_user_events (Py.strip (user_id payload)) w)
      as He.
    rewrite Hr in He. cbn [snd] in He.
    apply no_save_saved in He as [He _].
    simpl. rewrite saved_app, He. reflexivity.
  - intros str ->. reflexivity.
Qed.


(** C10: when a turn has computed its response text and the write of the
    user's message raises, the write of the bot's message is never
    submitted: the failed write is the only chat-message write of the
    turn, the error is logged, nothing else runs, and the response text is
    still returned. *)
Theorem failed_user_write_skips_bot_write
    (payload : ChatRequest) (w w1 w2 : W) (t1 : list event) (text : string)
    (e : exn) :
  Py.strip (user_id payload) <> EmptyString ->
  Py.strip (message payload) <> EmptyString ->
  chat_reply (Py.strip (user_id payload)) (Py.strip (message payload)) w
  = (Return text, w1, t1) ->
  save_chat_message
    (user_message (Py.strip (user_id payload))
                  (Py.strip (message payload))) w1 = (Raise e, w2) ->
  exists t,
    chat payload w = (Return {| response := text |}, w2, t)
    /\ saved t = [user_message (Py.strip (user_id payload))
                               (Py.strip (message payload))]
    /\ ~ In (Call_save_chat_message
               (bot_message (Py.strip (user_id payload)) text)) t.
Proof.
  intros Hu Hm Hr Hs. rewrite (chat_run payload w Hu Hm). cbn zeta.
  rewrite Hr, chat_persist_run, Hs. eexists. split; [reflexivity|].
  pose proof (chat_reply_saved (Py.strip (user_id payload))
                (Py.strip (message payload)) w) as Hrs.
  rewrite Hr in Hrs. cbn [snd] in Hrs.
  assert (saved (Log INFO (turn_log (Py.strip (user_id payload))
                             (Py.strip (message payload)))
           :: t1 ++ [Call_save_chat_message
                       (user_message (Py.strip (user_id payload))
                                     (Py.strip (message payload)));
                     Log ERROR (save_error_log
                                  (Py.strip (user_id payload)) e)])
          = [user_message (Py.strip (user_id payload))
                          (Py.strip (message payload))]) as Hsv.
  { simpl. rewrite saved_app, Hrs. reflexivity. }
  split; [exact Hsv|].
  intros Hin.
  assert (In (bot_message (Py.strip (user_id payload)) text)
             [user_message (Py.strip (user_id payload))
                           (Py.strip (message payload))]) as Hb.
  { rewrite <- Hsv. clear Hsv. revert Hin.
    generalize (Log INFO (turn_log (Py.strip (user_id payload))
                             (Py.strip (message payload)))
           :: t1 ++ [Call_save_chat_message
                       (user_message (Py.strip (user_id payload))
                                     (Py.strip (message payload)));
                     Log ERROR (save_error_log
                                  (Py.strip (user_id payload)) e)]).
    intros l. induction l as [|ev l IH]; [intros []|].
    intros [->|Hin]; [now left|].
    destruct ev; simpl; auto. }
  destruct Hb as [Hb|[]]. discriminate.
Qed.
End Pipeline.

(** ** The in-memory collaborators satisfy the storage assumptions *)

Lemma stub_get_user_read_only : get_user_read_only (W := Stub.world).
Proof. intros id w. reflexivity. Qed.

Lemma stub_created_is_found : created_is_found (W := Stub.world).
Proof.
  intros id u w w' r Hu Hc. cbn in Hu.
  rewrite lookup_singleton_eq in Hu. injection Hu as <-.
  cbn in Hc. rewrite lookup_singleton_eq in Hc. injection Hc as Hw. subst w'.
  exists {[ "phone_number" := PyStr id ]}. cbn.
  rewrite lookup_insert_eq, lookup_singleton_eq.
  repeat split. apply insert_non_empty.
Qed.

(** ** The claims on concrete turns *)

Lemma crisis_turn_returns_safety_message_witness :
  exists w' t,
    chat Stub.chest_pain (Stub.fresh (Return "unused"))
    = (Return {| response := CRITICAL_RESPONSE_MESSAGE |}, w', t)
    /\ forallb (fun ev => negb (is_context_or_generation ev)) t = true.
Proof.
  apply (crisis_turn_returns_safety_message Stub.chest_pain
           (Stub.fresh (Return "unused")) "chest pain").
  - simpl. tauto.
  - exists "I have ", "chest pain", EmptyString. split; reflexivity.
  - intros E. vm_compute in E. discriminate E.
Defined.

Lemma diabetes_not_critical :
  forall k, In k CRITICAL_KEYWORDS -> ~ icontains k (message Stub.diabetes).
Proof.
  intros k Hk Hc.
  assert (is_critical (message Stub.diabetes) = true) as E
    by (apply is_critical_iff; eauto).
  vm_compute in E. discriminate E.
Qed.

Lemma normal_turn_returns_ai_text_witness :
  exists w' t,
    chat Stub.diabetes (Stub.fresh (Return "Try more fiber."))
    = (Return {| response := "Try more fiber." |}, w', t)
    /\ In (Call_get_ai_response "What foods help with diabetes?"
             {[ "phone_number" := PyStr "u1" ]} []) t.
Proof.
  eapply (normal_turn_returns_ai_text Stub.diabetes
            (Stub.fresh (Return "Try more fiber."))).
  - intros E. vm_compute in E. discriminate E.
  - intros E. vm_compute in E. discriminate E.
  - exact diabetes_not_critical.
  - reflexivity.
  - reflexivity.
  - reflexivity.
Defined.

Lemma blank_input_is_rejected_witness :
  exists detail,
    chat {| user_id := "u1"; message := "   " |}
         (Stub.fresh (Return "unused"))
    = (Raise (HTTPException 400 detail), Stub.fresh (Return "unused"), [])
    /\ http_status (Raise (HTTPException 400 detail)) = 400%Z.
Proof.
  apply (blank_input_is_rejected {| user_id := "u1"; message := "   " |}
           (Stub.fresh (Return "unused"))).
  right. reflexivity.
Defined.

Lemma resolver_finds_or_creates_witness :
  exists (u : User) (w1 : Stub.world) (t1 : list event),
    get_or_create_user "u1" (Stub.fresh (Return "unused")) = (Return u, w1, t1)
    /\ u = {[ "phone_number" := PyStr "u1" ]}
    /\ In (Call_create_or_update_user u) t1
    /\ get_or_create_user "u1" w1 = (Return u, w1, [Call_get_user "u1"]).
Proof.
  destruct (resolver_finds_or_creates (W := Stub.world)) as (_ & Hcreate & Hidem).
  eexists _, _, _. split.
  - eapply (Hcreate "u1" (Stub.fresh (Return "unused"))); reflexivity.
  - split; [reflexivity|]. split; [simpl; auto|].
    eapply (Hidem stub_get_user_read_only stub_created_is_found "u1"
              (Stub.fresh (Return "unused"))).
    eapply (Hcreate "u1" (Stub.fresh (Return "unused"))); reflexivity.
Defined.

Lemma persistence_failure_keeps_response_witness :
  exists w' t0,
    chat Stub.diabetes
         (Stub.faulty (Return "Try more fiber.")
                      [None; Some (Exception "storage down")])
    = (Return {| response := "Try more fiber." |}, w',
       t0 ++ [Log ERROR (save_error_log "u1" (Exception "storage down"))]).
Proof.
  eapply (persistence_failure_keeps_response Stub.diabetes
            (Stub.faulty (Return "Try more fiber.")
                         [None; Some (Exception "storage down")])).
  - intros E. vm_compute in E. discriminate E.
  - intros E. vm_compute in E. discriminate E.
  - reflexivity.
  - right. eexists _, _, _. split; reflexivity.
Defined.


Lemma history_is_read_before_the_writes_witness :
  exists o w' post,
    chat Stub.diabetes (Stub.fresh (Return "Try more fiber."))
    = (o, w',
       [Log INFO (turn_log "u1" "What foods help with diabetes?");
        Call_get_user "u1";
        Call_create_or_update_user {[ "phone_number" := PyStr "u1" ]};
        Log INFO "Created new user profile for user_id=u1";
        Call_get_chat_history "u1"]
       ++ Call_get_ai_response "What foods help with diabetes?"
            {[ "phone_number" := PyStr "u1" ]} [] :: post)
    /\ saved [Log INFO (turn_log "u1" "What foods help with diabetes?");
              Call_get_user "u1";
              Call_create_or_update_user {[ "phone_number" := PyStr "u1" ]};
              Log INFO "Created new user profile for user_id=u1";
              Call_get_chat_history "u1"] = []
    /\ saved post <> [].
Proof.
  eexists _, _, _. split; [reflexivity|]. split; [|discriminate].
  eapply (history_is_read_before_the_writes Stub.diabetes
            (Stub.fresh (Return "Try more fiber."))).
  reflexivity.
Defined.

Lemma generation_failure_fails_the_turn_witness :
  exists t,
    chat Stub.diabetes (Stub.fresh (Raise (Exception "model unavailable")))
    = (Raise (Exception "model unavailable"),
       {| Stub.users := {[ "u1" := {[ "phone_number" := PyStr "u1" ]} ]};
          Stub.chat_messages := []; Stub.save_faults := [];
          Stub.ai_answer := Raise (Exception "model unavailable") |}, t)
    /\ t = Log INFO (turn_log "u1" "What foods help with diabetes?")
           :: [Call_get_user "u1";
               Call_create_or_update_user {[ "phone_number" := PyStr "u1" ]};
               Log INFO "Created new user profile for user_id=u1"]
              ++ [Call_get_chat_history "u1";
                  Call_get_ai_response "What foods help with diabetes?"
                    {[ "phone_number" := PyStr "u1" ]} []]
    /\ saved t = []
    /\ (forall str, Exception "model unavailable" = Exception str ->
        http_status (Raise (Exception "model unavailable")) = 500%Z).
Proof.
  refine (generation_failure_fails_the_turn Stub.diabetes
            (Stub.fresh (Raise (Exception "model unavailable")))
            {| Stub.users := {[ "u1" := {[ "phone_number" := PyStr "u1" ]} ]};
               Stub.chat_messages := []; Stub.save_faults := [];
               Stub.ai_answer := Raise (Exception "model unavailable") |}
            {| Stub.users := {[ "u1" := {[ "phone_number" := PyStr "u1" ]} ]};
               Stub.chat_messages := []; Stub.save_faults := [];
               Stub.ai_answer := Raise (Exception "model unavailable") |}
            {| Stub.users := {[ "u1" := {[ "phone_number" := PyStr "u1" ]} ]};
               Stub.chat_messages := []; Stub.save_faults := [];
               Stub.ai_answer := Raise (Exception "model unavailable") |}
            [Call_get_user "u1";
             Call_create_or_update_user {[ "phone_number" := PyStr "u1" ]};
             Log INFO "Created new user profile for user_id=u1"]
            {[ "phone_number" := PyStr "u1" ]} []
            (Exception "model unavailable") _ _ _ _ _ _).
  - intros E. vm_compute in E. discriminate E.
  - intros E. vm_compute in E. discriminate E.
  - exact diabetes_not_critical.
  - reflexivity.
  - reflexivity.
  - reflexivity.
Defined.

(** C8, as stated, fails on a first contact: the turn of a new identifier
    whose AI call raises ends with that exception and without any
    chat-message write, but the profile the resolver created before the
    call is in the store, which is no longer the store the turn found. *)
Lemma generation_failure_changes_the_state :
  exists w' t,
    chat Stub.diabetes (Stub.fresh (Raise (Exception "model unavailable")))
    = (Raise (Exception "model unavailable"), w', t)
    /\ In (Call_get_ai_response "What foods help with diabetes?"
             {[ "phone_number" := PyStr "u1" ]} []) t
    /\ saved t = []
    /\ Stub.users (Stub.fresh (Raise (Exception "model unavailable"))) !! "u1"
       = None
    /\ Stub.users w' !! "u1" = Some {[ "phone_number" := PyStr "u1" ]}
    /\ w' <> Stub.fresh (Raise (Exception "model unavailable")).
Proof.
  eexists _, _. split; [reflexivity|].
  split; [simpl; tauto|]. split; [reflexivity|].
  split; [reflexivity|]. split; [reflexivity|].
  intros E. apply (f_equal (fun x => Stub.users x !! "u1")) in E.
  vm_compute in E. discriminate E.
Qed.


Lemma failed_user_write_skips_bot_write_witness :
  exists t,
    chat Stub.diabetes
         (Stub.faulty (Return "Try more fiber.")
                      [Some (Exception "storage down")])
    = (Return {| response := "Try more fiber." |},
       {| Stub.users := {[ "u1" := {[ "phone_number" := PyStr "u1" ]} ]};
          Stub.chat_messages := []; Stub.save_faults := [];
          Stub.ai_answer := Return "Try more fiber." |}, t)
    /\ saved t = [user_message "u1" "What foods help with diabetes?"]
    /\ ~ In (Call_save_chat_message (bot_message "u1" "Try more fiber.")) t.
Proof.
  eapply (failed_user_write_skips_bot_write Stub.diabetes
            (Stub.faulty (Return "Try more fiber.")
                         [Some (Exception "storage down")])).
  - intros E. vm_compute in E. discriminate E.
  - intros E. vm_compute in E. discriminate E.
  - reflexivity.
  - reflexivity.
Defined.

(** ** Further properties of [main.py] *)

Lemma lower_char_idem (c : ascii) :
  Py.lower_char (Py.lower_char c) = Py.lower_char c.
Proof.
  destruct c as [b0 b1 b2 b3 b4 b5 b6 b7].
  destruct b0, b1, b2, b3, b4, b5, b6, b7; reflexivity.
Qed.

Lemma lower_idem (s : string) : Py.lower (Py.lower s) = Py.lower s.
Proof.
  induction s as [|c s IH]; [reflexivity|].
  simpl. now rewrite lower_char_idem, IH.
Qed.

Lemma rstrip_idem (s : string) : Py.rstrip (Py.rstrip s) = Py.rstrip s.
Proof.
  induction s as [|c s IH]; [reflexivity|].
  simpl. destruct (Py.rstrip s) as [|x r] eqn:E.
  - destruct (Py.isspace c) eqn:Hc; [reflexivity|]. simpl. now rewrite Hc.
  - change (Py.rstrip (String c (String x r)))
      with (match Py.rstrip (String x r) with
            | EmptyString =>
                if Py.isspace c then EmptyString else String c EmptyString
            | r' => String c r'
            end).
    now rewrite IH.
Qed.

Lemma rstrip_keeps_head (c : ascii) (s : string) :
  Py.isspace c = false -> exists r, Py.rstrip (String c s) = String c r.
Proof.
  intros Hc. simpl. destruct (Py.rstrip s) as [|x r].
  - rewrite Hc. now exists EmptyString.
  - now exists (String x r).
Qed.

(** Stripping twice is stripping once. *)
Lemma strip_idem (s : string) : Py.strip (Py.strip s) = Py.strip s.
Proof.
  unfold Py.strip. pose proof (lstrip_head s) as Hh.
  destruct (Py.lstrip s) as [|c t]; [reflexivity|].
  destruct (rstrip_keeps_head c t Hh) as [r E].
  rewrite E. cbn [Py.lstrip]. rewrite Hh, <- E. apply rstrip_idem.
Qed.

(** X1: the safety test is positive exactly for the messages that split
    around a piece whose lower-casing is one of the configured keywords. *)
Theorem critical_iff_keyword_occurs (message : string) :
  is_critical message = true <->
  exists k pre mid post,
    In k CRITICAL_KEYWORDS
    /\ message = pre +:+ mid +:+ post
    /\ Py.lower mid = k.
Proof.
  pose proof keywords_lowercase as Hl. rewrite Forall_forall in Hl.
  rewrite is_critical_iff. split.
  - intros (k & Hk & pre & mid & post & E & H).
    exists k, pre, mid, post.
    rewrite (Hl k) in H by now apply list_elem_of_In. auto.
  - intros (k & pre & mid & post & Hk & E & H).
    exists k. split; [exact Hk|]. exists pre, mid, post.
    rewrite (Hl k) by now apply list_elem_of_In. auto.
Qed.

(** X2: two messages that differ only in letter case, or only in
    surrounding whitespace, get the same verdict. *)
Theorem critical_ignores_case_and_padding (a b : string) :
  Py.lower (Py.strip a) = Py.lower (Py.strip b) ->
  is_critical a = is_critical b.
Proof.
  intros E. rewrite <- (is_critical_strip a), <- (is_critical_strip b).
  unfold is_critical. now rewrite E.
Qed.

(** X3: text added around a critical message never clears the verdict:
    the test has no notion of negation or context. *)
Theorem critical_survives_added_text (message before after : string) :
  is_critical message = true ->
  is_critical (before +:+ message +:+ after) = true.
Proof.
  rewrite !is_critical_iff.
  intros (k & Hk & pre & mid & post & -> & H).
  exists k. split; [exact Hk|].
  exists (before +:+ pre), mid, (post +:+ after).
  split; [|exact H]. now rewrite !str_app_assoc.
Qed.

Section Extras.
Context `{Schemas} {W : Type} `{!DatabaseService W} `{!GeminiService W}.

(** X4: the identifier is validated first. A blank identifier is rejected
    with the detail [user_id is required.] whatever the message is; a blank
    message is rejected with [message cannot be empty.] only when the
    identifier is not blank. *)
Theorem identifier_is_validated_first (payload : ChatRequest) (w : W) :
  (all_space (user_id payload) = true ->
   chat payload w
   = (Raise (HTTPException 400 "user_id is required."), w, []))
  /\ (all_space (user_id payload) = false ->
      all_space (message payload) = true ->
      chat payload w
      = (Raise (HTTPException 400 "message cannot be empty."), w, [])).
Proof.
  split.
  - intros Hu. apply strip_empty_iff in Hu. unfold chat. now rewrite Hu.
  - intros Hu Hm. apply strip_empty_iff in Hm. unfold chat. rewrite Hm.
    destruct (Py.truthy (Py.strip (user_id payload))) eqn:E; [reflexivity|].
    apply truthy_false_iff, strip_empty_iff in E. congruence.
Qed.

(** X5: a request is handled exactly as the request with both fields
    trimmed: outcome, world and events are the same. *)
Theorem chat_handles_the_trimmed_request (payload : ChatRequest) (w : W) :
  chat payload w
  = chat {| user_id := Py.strip (user_id payload);
            message := Py.strip (message payload) |} w.
Proof. unfold chat. cbn [user_id message]. now rewrite !strip_idem. Qed.

(** X6: a lookup that returns an empty row counts as no profile: the
    resolver builds the profile from the identifier alone, asks storage to
    persist it and returns it. *)
Theorem empty_row_is_treated_as_absent
    (uid : string) (w w1 w2 : W) (u : User) (r : unit) :
  get_user uid w = (Return (Some ∅), w1) ->
  User_kwargs {[ "phone_number" := PyStr uid ]} = Return u ->
  create_or_update_user u w1 = (Return r, w2) ->
  get_or_create_user uid w
  = (Return u, w2,
     [Call_get_user uid; Call_create_or_update_user u;
      Log INFO ("Created new user profile for user_id=" +:+ uid)]).
Proof.
  intros Hg Hu Hc. rewrite get_or_create_user_run, Hg.
  unfold dict_truthy. rewrite bool_decide_eq_true_2 by reflexivity.
  cbn [negb]. now rewrite Hu, Hc.
Qed.

(** X7: storage errors pass through the resolver. If the lookup raises,
    the resolver raises the same exception and asks for no write; if the
    write of a new profile raises, the resolver raises that exception, the
    profile is not returned and its creation is not logged. *)
Theorem resolver_propagates_storage_errors (uid : string) (w : W) :
  (forall (e : exn) (w1 : W),
      get_user uid w = (Raise e, w1) ->
      get_or_create_user uid w = (Raise e, w1, [Call_get_user uid]))
  /\ (forall (w1 w2 : W) (u : User) (e : exn),
      get_user uid w = (Return None, w1) ->
      User_kwargs {[ "phone_number" := PyStr uid ]} = Return u ->
      create_or_update_user u w1 = (Raise e, w2) ->
      get_or_create_user uid w
      = (Raise e, w2, [Call_get_user uid; Call_create_or_update_user u])).
Proof.
  split.
  - intros e w1 Hg. now rewrite get_or_create_user_run, Hg.
  - intros w1 w2 u e Hg Hu Hc. rewrite get_or_create_user_run, Hg.
    cbn [dict_truthy]. now rewrite Hu, Hc.
Qed.

(** X8: when user resolution raises in a non-critical turn, the endpoint
    raises the same exception, and the turn has made no history read, no AI
    call and no chat-message write. *)
Theorem resolution_failure_fails_the_turn
    (payload : ChatRequest) (w w1 : W) (t1 : list event) (e : exn) :
  Py.strip (user_id payload) <> EmptyString ->
  Py.strip (message payload) <> EmptyString ->
  (forall k, In k CRITICAL_KEYWORDS -> ~ icontains k (message payload)) ->
  get_or_create_user (Py.strip (user_id payload)) w = (Raise e, w1, t1) ->
  exists t,
    chat payload w = (Raise e, w1, t)
    /\ forallb (fun ev => match ev with
                          | Call_get_chat_history _
                          | Call_get_ai_response _ _ _
                          | Call_save_chat_message _ => false
                          | _ => true
                          end) t = true.
Proof.
  intros Hu Hm Hn Hr.
  rewrite (chat_run payload w Hu Hm). cbn zeta.
  rewrite (chat_reply_normal _ _ w (no_keyword_not_critical _ Hn)), Hr.
  eexists. split; [reflexivity|]. cbn [forallb andb].
  rewrite get_or_create_user_run in Hr.
  destruct (get_user _ w) as [[existing|e0] w0].
  2:{ injection Hr as _ _ <-. reflexivity. }
  destruct (dict_truthy existing).
  - destruct existing as [d|]; injection Hr as _ _ <-; reflexivity.
  - destruct (User_kwargs _) as [u|e0].
    2:{ injection Hr as _ _ <-. reflexivity. }
    destruct (create_or_update_user u w0) as [[r|e0] w2];
      [discriminate|]. injection Hr as _ _ <-. reflexivity.
Qed.

(** X9: when the history read raises in a non-critical turn, the endpoint
    raises the same exception on the world that read left; no AI call and
    no chat-message write has been made. *)
Theorem history_failure_fails_the_turn
    (payload : ChatRequest) (w w1 w2 : W) (t1 : list event)
    (profile : User) (e : exn) :
  Py.strip (user_id payload) <> EmptyString ->
  Py.strip (message payload) <> EmptyString ->
  (forall k, In k CRITICAL_KEYWORDS -> ~ icontains k (message payload)) ->
  get_or_create_user (Py.strip (user_id payload)) w
  = (Return profile, w1, t1) ->
  get_chat_history (Py.strip (user_id payload)) w1 = (Raise e, w2) ->
  exists t,
    chat payload w = (Raise e, w2, t)
    /\ saved t = []
    /\ forallb (fun ev => negb (is_generation ev)) t = true.
Proof.
  intros Hu Hm Hn Hr Hh.
  rewrite (chat_run payload w Hu Hm). cbn zeta.
  rewrite (chat_reply_normal _ _ w (no_keyword_not_critical _ Hn)), Hr, Hh.
  eexists. split; [reflexivity|].
  pose proof (get_or_create_user_events (Py.strip (user_id payload)) w) as He.
  rewrite Hr in He. cbn [snd] in He. apply no_save_saved in He as [Hs Hg].
  split.
  - simpl. rewrite saved_app, Hs. reflexivity.
  - simpl. rewrite forallb_app, Hg. reflexivity.
Qed.

Lemma filter_none {A} (P : A -> bool) (l : list A) :
  forallb (fun a => negb (P a)) l = true -> List.filter P l = [].
Proof.
  induction l as [|a l IH]; [reflexivity|]. simpl.
  intros Hf. apply andb_true_iff in Hf as [Ha Hl].
  apply negb_true_iff in Ha. rewrite Ha. now apply IH.
Qed.

(** X10: no turn calls the AI collaborator more than once. *)
Theorem at_most_one_generation_call (payload : ChatRequest) (w : W) :
  length (List.filter is_generation (chat payload w).2) <= 1.
Proof.
  destruct (Py.truthy (Py.strip (user_id payload))) eqn:Eu.
  2:{ unfold chat. rewrite Eu. simpl. lia. }
  destruct (Py.truthy (Py.strip (message payload))) eqn:Em.
  2:{ unfold chat. rewrite Eu, Em. simpl. lia. }
  apply truthy_true_iff in Eu, Em.
  rewrite (chat_run payload w Eu Em). cbn zeta.
  set (uid := Py.strip (user_id payload)).
  set (msg := Py.strip (message payload)).
  destruct (is_critical msg) eqn:Ecrit.
  { rewrite (chat_reply_critical uid msg w Ecrit).
    pose proof (chat_persist_events uid msg CRITICAL_RESPONSE_MESSAGE w) as Hp.
    destruct (chat_persist uid msg _ w) as [[o2 w2] t2]. cbn [snd] in *.
    simpl. rewrite (filter_none _ _ Hp). simpl. lia. }
  rewrite (chat_reply_normal uid msg w Ecrit).
  pose proof (get_or_create_user_events uid w) as He.
  destruct (get_or_create_user uid w) as [[[p|e] w1] t1]; cbn [snd] in He;
    apply no_save_saved in He as [_ Hgen].
  2:{ cbn [snd]. simpl. rewrite (filter_none _ _ Hgen). simpl. lia. }
  destruct (get_chat_history uid w1) as [[h|e] w2].
  2:{ cbn [snd]. simpl. rewrite List.filter_app, (filter_none _ _ Hgen).
      simpl. lia. }
  destruct (get_ai_response msg p h w2) as [[text|e] w3].
  - pose proof (chat_persist_events uid msg text w3) as Hp.
    destruct (chat_persist uid msg text w3) as [[o2 w4] t2]. cbn [snd] in *.
    simpl. rewrite !List.filter_app, (filter_none _ _ Hgen),
      (filter_none _ _ Hp). simpl. lia.
  - cbn [snd]. simpl. rewrite List.filter_app, (filter_none _ _ Hgen).
    simpl. lia.
Qed.

Lemma chat_reply_logs_no_error (uid msg : string) (w : W) :
  existsb (fun ev => match ev with Log ERROR _ => true | _ => false end)
          (chat_reply uid msg w).2 = false.
Proof.
  destruct (is_critical msg) eqn:Hc.
  { now rewrite chat_reply_critical. }
  rewrite chat_reply_normal by exact Hc.
  assert (existsb (fun ev => match ev with Log ERROR _ => true | _ => false end)
                  (get_or_create_user uid w).2 = false) as He.
  { rewrite get_or_create_user_run.
    destruct (get_user uid w) as [[existing|e] w1]; [|reflexivity].
    destruct (dict_truthy existing).
    - destruct existing; reflexivity.
    - destruct (User_kwargs _) as [u|e]; [|reflexivity].
      destruct (create_or_update_user u w1) as [[[]|e] w2]; reflexivity. }
  destruct (get_or_create_user uid w) as [[[profile|e] w1] t1];
    cbn [snd] in *; [|exact He].
  destruct (get_chat_history uid w1) as [[history|e] w2].
  - destruct (get_ai_response msg profile history w2) as [o w3].
    cbn [snd]. rewrite existsb_app, He. reflexivity.
  - cbn [snd]. rewrite existsb_app, He. reflexivity.
Qed.

(** X11: once a turn has computed its response text, an ERROR record is
    logged exactly when one of the two chat-message writes raises: a turn
    whose writes both return logs no error. *)
Theorem error_is_logged_iff_a_write_fails
    (payload : ChatRequest) (w w1 : W) (t1 : list event) (text : string) :
  Py.strip (user_id payload) <> EmptyString ->
  Py.strip (message payload) <> EmptyString ->
  chat_reply (Py.strip (user_id payload)) (Py.strip (message payload)) w
  = (Return text, w1, t1) ->
  existsb (fun ev => match ev with Log ERROR _ => true | _ => false end)
          (chat payload w).2 = true
  <-> match save_chat_message
              (user_message (Py.strip (user_id payload))
                            (Py.strip (message payload))) w1 with
      | (Raise _, _) => True
      | (Return _, w2) =>
          match save_chat_message
                  (bot_message (Py.strip (user_id payload)) text) w2 with
          | (Raise _, _) => True
          | (Return _, _) => False
          end
      end.
Proof.
  intros Hu Hm Hr.
  pose proof (chat_reply_logs_no_error (Py.strip (user_id payload))
                (Py.strip (message payload)) w) as He.
  rewrite Hr in He. cbn [snd] in He.
  rewrite (chat_run payload w Hu Hm). cbn zeta.
  rewrite Hr, chat_persist_run.
  destruct (save_chat_message (user_message _ _) w1) as [[[]|e] w2].
  - destruct (save_chat_message (bot_message _ _) w2) as [[[]|e] w3];
      cbn [snd existsb orb]; rewrite existsb_app, He; simpl;
      split; auto; discriminate.
  - cbn [snd existsb orb]. rewrite existsb_app, He. simpl. tauto.
Qed.
End Extras.

(** ** Properties of [check_models.py] *)

Lemma printed_app (a b : list CheckModels.event) :
  CheckModels.printed (a ++ b)
  = CheckModels.printed a ++ CheckModels.printed b.
Proof.
  induction a as [|ev a IH]; [reflexivity|].
  destruct ev; simpl; now rewrite IH.
Qed.

Lemma printed_model_lines (models : list CheckModels.Model) :
  CheckModels.printed (CheckModels.model_lines models)
  = map CheckModels.model_line
        (List.filter CheckModels.supports_generate_content models).
Proof.
  induction models as [|m models IH]; [reflexivity|].
  unfold CheckModels.model_lines in *. simpl.
  destruct (CheckModels.supports_generate_content m); simpl; now rewrite IH.
Qed.

Lemma model_lines_no_call (models : list CheckModels.Model) :
  forallb (fun ev => negb (CheckModels.is_call ev))
          (CheckModels.model_lines models) = true.
Proof.
  induction models as [|m models IH]; [reflexivity|].
  unfold CheckModels.model_lines in *. simpl.
  destruct (CheckModels.supports_generate_content m); simpl; exact IH.
Qed.

(** [slice_to n s] is a prefix of [s], cut where a code point starts. *)
Lemma slice_to_prefix (n : nat) (s : string) :
  exists rest,
    s = CheckModels.slice_to n s +:+ rest
    /\ (rest = EmptyString
        \/ exists c r, rest = String c r
                       /\ CheckModels.is_continuation c = false).
Proof.
  revert n. induction s as [|c s IH]; intros n.
  - exists EmptyString. split; [reflexivity | now left].
  - cbn [CheckModels.slice_to].
    destruct (CheckModels.is_continuation c) eqn:Hc.
    + destruct (IH n) as (rest & E & Hrest). exists rest. split; [|exact Hrest].
      rewrite str_app_cons. now rewrite <- E.
    + destruct n as [|n].
      * exists (String c s). split; [reflexivity|]. right. eauto.
      * destruct (IH n) as (rest & E & Hrest). exists rest.
        split; [|exact Hrest]. rewrite str_app_cons. now rewrite <- E.
Qed.

(** [slice_to n s] holds the first [n] code points of [s], or all of them
    when [s] has fewer. *)
Lemma slice_to_code_points (n : nat) (s : string) :
  CheckModels.code_points (CheckModels.slice_to n s)
  = Nat.min n (CheckModels.code_points s).
Proof.
  revert n. induction s as [|c s IH]; intros n.
  - cbn. now rewrite Nat.min_0_r.
  - cbn [CheckModels.slice_to CheckModels.code_points].
    destruct (CheckModels.is_continuation c) eqn:Hc.
    + cbn [CheckModels.code_points]. rewrite Hc. apply IH.
    + destruct n as [|n]; [reflexivity|].
      cbn [CheckModels.code_points]. rewrite Hc, IH. reflexivity.
Qed.

(** On a key of two-byte characters the slice has five characters, ten
    bytes; two keys that differ in their third character differ in their
    slices, whatever the bytes they share. *)
Lemma slice_to_two_byte_characters :
  CheckModels.slice_to 5 "ééééééé" = "ééééé"
  /\ String.length (CheckModels.slice_to 5 "ééééééé") = 10
  /\ CheckModels.slice_to 5 "ééèzz" <> CheckModels.slice_to 5 "ééézz"
  /\ CheckModels.slice_to 5 "AIzaSyExample" = "AIzaS".
Proof.
  repeat split; try reflexivity. discriminate.
Qed.

Lemma str_length_app (a b : string) :
  String.length (a +:+ b) = String.length a + String.length b.
Proof.
  induction a as [|c a IH]; [reflexivity|].
  rewrite str_app_cons. cbn [String.length]. now rewrite IH.
Qed.

Lemma str_app_inv_tail (a b t : string) : a +:+ t = b +:+ t -> a = b.
Proof.
  revert b. induction a as [|c a IH]; intros [|d b] E.
  - reflexivity.
  - apply (f_equal String.length) in E.
    rewrite str_app_nil_l, str_app_cons in E. cbn [String.length] in E.
    rewrite str_length_app in E. lia.
  - apply (f_equal String.length) in E.
    rewrite str_app_nil_l, str_app_cons in E. cbn [String.length] in E.
    rewrite str_length_app in E. lia.
  - rewrite !str_app_cons in E. injection E as -> E. f_equal. now apply IH.
Qed.

Lemma str_app_inv_head (h a b : string) : h +:+ a = h +:+ b -> a = b.
Proof.
  induction h as [|c h IH]; [now rewrite !str_app_nil_l|].
  rewrite !str_app_cons. intros E. injection E as E. now apply IH.
Qed.

(** With a key, the first line printed is the greeting. *)
Lemma printed_greeting (env : CheckModels.Env) (k : string) :
  CheckModels.GEMINI_API_KEY env = Some k ->
  k <> EmptyString ->
  exists rest,
    CheckModels.printed (CheckModels.main env).1
    = ("✅ Found API Key: " +:+ CheckModels.slice_to 5 k +:+ "... (hidden)")
      :: rest.
Proof.
  intros Hk Hne. apply truthy_true_iff in Hne.
  unfold CheckModels.main. rewrite Hk, Hne. cbn [negb].
  destruct (CheckModels.configure env k) as [[]|e]; [|cbn; eauto].
  destruct (CheckModels.list_models env) as [models [e|]];
    [|destruct (existsb _ models)]; cbn [fst];
    rewrite !printed_app; cbn; eauto.
Qed.

(** X12: without an API key (the variable unset, or set to the empty
    string) the script prints the one error line and exits with status 1;
    it calls neither [configure] nor [list_models]. *)
Theorem missing_key_stops_the_script (env : CheckModels.Env) :
  CheckModels.GEMINI_API_KEY env = None
  \/ CheckModels.GEMINI_API_KEY env = Some EmptyString ->
  CheckModels.main env
  = ([CheckModels.Print "❌ Error: GEMINI_API_KEY not found in .env file."],
     CheckModels.SystemExit 1).
Proof.
  intros [E|E]; unfold CheckModels.main; now rewrite E.
Qed.

(** X13: the script exits with status 1 exactly when the key is missing
    or empty, [configure] raises, or the listing of the models raises; in
    every other run it completes, also when no model supports
    [generateContent]. *)
Theorem script_exit_status (env : CheckModels.Env) :
  let failed :=
    match CheckModels.GEMINI_API_KEY env with
    | None => True
    | Some k =>
        k = EmptyString
        \/ (exists e, CheckModels.configure env k = Raise e)
        \/ (exists e, (CheckModels.list_models env).2 = Some e)
    end in
  ((CheckModels.main env).2 = CheckModels.SystemExit 1 <-> failed)
  /\ ((CheckModels.main env).2 = CheckModels.Completed <-> ~ failed).
Proof.
  unfold CheckModels.main.
  destruct (CheckModels.GEMINI_API_KEY env) as [k|].
  2:{ cbn. split; split; auto; [discriminate | tauto]. }
  destruct k as [|c k].
  { cbn. split; split; auto; [discriminate | tauto]. }
  cbn [Py.truthy negb].
  destruct (CheckModels.configure env (String c k)) as [[]|e].
  2:{ cbn. split; split; eauto; [discriminate|].
      intros Hn. destruct Hn. eauto. }
  destruct (CheckModels.list_models env) as [models [e|]].
  { cbn. split; split; eauto 6; [discriminate|].
    intros Hn. destruct Hn. eauto. }
  assert (~ (String c k = EmptyString
             \/ (exists e, Return () = Raise e)
             \/ (exists e, (models, @None exn).2 = Some e))) as Hn.
  { intros [E|[[e E]|[e E]]]; discriminate. }
  destruct (existsb _ models); cbn [snd]; split; split; auto;
    try discriminate; tauto.
Qed.

(** X14: with a key and a configured library, the script prints the
    greeting with the first five characters (code points) of the key, the
    two header lines, then one line per model that supports
    [generateContent], in the order of the listing and none for the other
    models, also for the models listed before a failure; then the closing
    lines. *)
Theorem script_prints_the_supporting_models
    (env : CheckModels.Env) (k : string) (r : unit)
    (models : list CheckModels.Model) (failure : option exn) :
  CheckModels.GEMINI_API_KEY env = Some k ->
  k <> EmptyString ->
  CheckModels.configure env k = Return r ->
  CheckModels.list_models env = (models, failure) ->
  CheckModels.printed (CheckModels.main env).1
  = [ "✅ Found API Key: " +:+ CheckModels.slice_to 5 k +:+ "... (hidden)";
      "✅ Library configured. Contacting Google...";
      CheckModels.newline
      +:+ "--- AVAILABLE MODELS (supporting generateContent) ---" ]
    ++ map CheckModels.model_line
           (List.filter CheckModels.supports_generate_content models)
    ++ CheckModels.printed
         match failure with
         | Some e => CheckModels.connection_error_lines e
         | None =>
             if existsb CheckModels.supports_generate_content models
             then CheckModels.success_lines
             else CheckModels.no_models_lines
         end.
Proof.
  intros Hk Hne Hc Hl. apply truthy_true_iff in Hne.
  unfold CheckModels.main. rewrite Hk, Hne, Hc, Hl. cbn [negb].
  destruct failure as [e|]; [|destruct (existsb _ models)]; cbn [fst];
    rewrite !printed_app, printed_model_lines; reflexivity.
Qed.

(** X15: the key reaches the output of the script through its first
    five characters (code points) and in no other way, apart from what
    [genai.configure] answers for it. Two runs whose keys agree on their
    first five characters, and for which [configure] answers alike and the
    listing is the same, print the same lines and end the same way; two
    runs whose keys differ within their first five characters print
    different lines, whatever the library does. The slice shown has at
    most five characters. *)
Theorem script_shows_only_five_characters
    (env1 env2 : CheckModels.Env) (k1 k2 : string) :
  CheckModels.GEMINI_API_KEY env1 = Some k1 ->
  CheckModels.GEMINI_API_KEY env2 = Some k2 ->
  k1 <> EmptyString ->
  k2 <> EmptyString ->
  (CheckModels.slice_to 5 k1 = CheckModels.slice_to 5 k2 ->
   CheckModels.configure env1 k1 = CheckModels.configure env2 k2 ->
   CheckModels.list_models env1 = CheckModels.list_models env2 ->
   CheckModels.printed (CheckModels.main env1).1
   = CheckModels.printed (CheckModels.main env2).1
   /\ (CheckModels.main env1).2 = (CheckModels.main env2).2)
  /\ (CheckModels.slice_to 5 k1 <> CheckModels.slice_to 5 k2 ->
      CheckModels.printed (CheckModels.main env1).1
      <> CheckModels.printed (CheckModels.main env2).1)
  /\ CheckModels.code_points (CheckModels.slice_to 5 k1)
     = Nat.min 5 (CheckModels.code_points k1).
Proof.
  intros H1 H2 N1 N2. split; [|split].
  - intros Hs Hc Hl. apply truthy_true_iff in N1, N2.
    unfold CheckModels.main. rewrite H1, H2, N1, N2, Hs, Hc, Hl. cbn [negb].
    destruct (CheckModels.configure env2 k2) as [[]|e]; [|split; reflexivity].
    destruct (CheckModels.list_models env2) as [models [e|]];
      [|destruct (existsb _ models)]; cbn [fst snd];
      rewrite !printed_app; split; reflexivity.
  - intros Hs E. apply Hs.
    destruct (printed_greeting env1 k1 H1 N1) as [r1 E1].
    destruct (printed_greeting env2 k2 H2 N2) as [r2 E2].
    rewrite E1, E2 in E. injection E as E _.
    apply str_app_inv_head in E. apply str_app_inv_tail in E. exact E.
  - apply slice_to_code_points.
Qed.

(** X16: the library is only called with a usable key, and the models are
    only listed once [configure] has returned: a [configure] call in the
    trace carries the non-empty key of the environment, and a
    [list_models] call implies that [configure] returned on that key. *)
Theorem script_calls_are_guarded (env : CheckModels.Env) :
  (forall k,
      In (CheckModels.Call_configure k) (CheckModels.main env).1 ->
      CheckModels.GEMINI_API_KEY env = Some k /\ k <> EmptyString)
  /\ (In CheckModels.Call_list_models (CheckModels.main env).1 ->
      exists k r,
        CheckModels.GEMINI_API_KEY env = Some k
        /\ CheckModels.configure env k = Return r).
Proof.
  assert (forall ev l, CheckModels.is_call ev = true ->
            forallb (fun ev => negb (CheckModels.is_call ev)) l = true ->
            ~ In ev l) as Hnc.
  { intros ev l Hev Hl Hin. rewrite forallb_forall in Hl.
    apply Hl in Hin. rewrite Hev in Hin. discriminate. }
  assert (forall models tail ev,
             CheckModels.is_call ev = true ->
             forallb (fun ev => negb (CheckModels.is_call ev)) tail = true ->
             ~ In ev (CheckModels.model_lines models ++ tail)) as Hrest.
  { intros models tail ev Hev Ht. apply Hnc; [exact Hev|].
    rewrite forallb_app, model_lines_no_call. exact Ht. }
  unfold CheckModels.main.
  destruct (CheckModels.GEMINI_API_KEY env) as [k|].
  2:{ cbn. split; [intros k0 [E|[]]; discriminate | intros [E|[]]; discriminate]. }
  destruct k as [|c k].
  { cbn. split; [intros k0 [E|[]]; discriminate | intros [E|[]]; discriminate]. }
  cbn [Py.truthy negb].
  destruct (CheckModels.configure env (String c k)) as [[]|e] eqn:Hc.
  2:{ cbn. split.
      - intros k0 [E|[E|[E|[]]]]; try discriminate.
        injection E as <-. split; [reflexivity | discriminate].
      - intros [E|[E|[E|[]]]]; discriminate. }
  split.
  - intros k0 Hin.
    assert (CheckModels.Call_configure k0
            = CheckModels.Call_configure (String c k)) as E.
    { destruct (CheckModels.list_models env) as [models [e|]];
        [|destruct (existsb _ models)]; cbn [fst] in Hin;
        simpl in Hin;
        destruct Hin as [E|[E|[E|[E|[E|Hin]]]]]; try discriminate;
        try (symmetry; exact E);
        exfalso; revert Hin; apply Hrest; reflexivity. }
    injection E as ->. split; [reflexivity | discriminate].
  - intros _. exists (String c k), (). auto.
Qed.

(** ** The further properties on concrete inputs *)

Lemma critical_ignores_case_and_padding_witness :
  is_critical "  I HAVE Chest Pain " = is_critical "i have chest pain".
Proof.
  apply (critical_ignores_case_and_padding "  I HAVE Chest Pain "
           "i have chest pain").
  reflexivity.
Defined.

Lemma critical_survives_added_text_witness :
  is_critical ("I do not have " +:+ "chest pain" +:+ ", I feel fine") = true.
Proof.
  apply (critical_survives_added_text "chest pain" "I do not have "
           ", I feel fine").
  reflexivity.
Defined.

Lemma identifier_is_validated_first_witness :
  chat {| user_id := "  "; message := EmptyString |}
       (Stub.fresh (Return "unused"))
  = (Raise (HTTPException 400 "user_id is required."),
     Stub.fresh (Return "unused"), [])
  /\ chat {| user_id := "u1"; message := "  " |}
          (Stub.fresh (Return "unused"))
     = (Raise (HTTPException 400 "message cannot be empty."),
        Stub.fresh (Return "unused"), []).
Proof.
  split.
  - apply (identifier_is_validated_first
             {| user_id := "  "; message := EmptyString |}
             (Stub.fresh (Return "unused"))).
    reflexivity.
  - apply (identifier_is_validated_first
             {| user_id := "u1"; message := "  " |}
             (Stub.fresh (Return "unused"))); reflexivity.
Defined.

Lemma empty_row_is_treated_as_absent_witness :
  exists w2,
    get_or_create_user "u1"
      {| Stub.users := {[ "u1" := ∅ ]}; Stub.chat_messages := [];
         Stub.save_faults := []; Stub.ai_answer := Return "unused" |}
    = (Return {[ "phone_number" := PyStr "u1" ]}, w2,
       [Call_get_user "u1";
        Call_create_or_update_user {[ "phone_number" := PyStr "u1" ]};
        Log INFO ("Created new user profile for user_id=" +:+ "u1")]).
Proof.
  eexists.
  eapply (empty_row_is_treated_as_absent "u1"
            {| Stub.users := {[ "u1" := ∅ ]}; Stub.chat_messages := [];
               Stub.save_faults := []; Stub.ai_answer := Return "unused" |});
    reflexivity.
Defined.

Lemma resolver_propagates_storage_errors_witness :
  get_or_create_user "u1"
    {| Outage.lookup_fails := true; Outage.create_fails := false;
       Outage.history_fails := false |}
  = (Raise Outage.storage_down,
     {| Outage.lookup_fails := true; Outage.create_fails := false;
        Outage.history_fails := false |},
     [Call_get_user "u1"])
  /\ get_or_create_user "u1"
       {| Outage.lookup_fails := false; Outage.create_fails := true;
          Outage.history_fails := false |}
     = (Raise Outage.storage_down,
        {| Outage.lookup_fails := false; Outage.create_fails := true;
           Outage.history_fails := false |},
        [Call_get_user "u1";
         Call_create_or_update_user {[ "phone_number" := PyStr "u1" ]}]).
Proof.
  split.
  - apply (resolver_propagates_storage_errors "u1"
             {| Outage.lookup_fails := true; Outage.create_fails := false;
                Outage.history_fails := false |}).
    reflexivity.
  - eapply (proj2 (resolver_propagates_storage_errors "u1"
             {| Outage.lookup_fails := false; Outage.create_fails := true;
                Outage.history_fails := false |})); reflexivity.
Defined.

Lemma resolution_failure_fails_the_turn_witness :
  exists t,
    chat Stub.diabetes
      {| Outage.lookup_fails := true; Outage.create_fails := false;
         Outage.history_fails := false |}
    = (Raise Outage.storage_down,
       {| Outage.lookup_fails := true; Outage.create_fails := false;
          Outage.history_fails := false |}, t)
    /\ forallb (fun ev => match ev with
                          | Call_get_chat_history _
                          | Call_get_ai_response _ _ _
                          | Call_save_chat_message _ => false
                          | _ => true
                          end) t = true.
Proof.
  eapply (resolution_failure_fails_the_turn Stub.diabetes
            {| Outage.lookup_fails := true; Outage.create_fails := false;
               Outage.history_fails := false |}).
  - intros E. vm_compute in E. discriminate E.
  - intros E. vm_compute in E. discriminate E.
  - exact diabetes_not_critical.
  - reflexivity.
Defined.

Lemma history_failure_fails_the_turn_witness :
  exists t,
    chat Stub.diabetes
      {| Outage.lookup_fails := false; Outage.create_fails := false;
         Outage.history_fails := true |}
    = (Raise Outage.storage_down,
       {| Outage.lookup_fails := false; Outage.create_fails := false;
          Outage.history_fails := true |}, t)
    /\ saved t = []
    /\ forallb (fun ev => negb (is_generation ev)) t = true.
Proof.
  eapply (history_failure_fails_the_turn Stub.diabetes
            {| Outage.lookup_fails := false; Outage.create_fails := false;
               Outage.history_fails := true |}).
  - intros E. vm_compute in E. discriminate E.
  - intros E. vm_compute in E. discriminate E.
  - exact diabetes_not_critical.
  - reflexivity.
  - reflexivity.
Defined.

Lemma error_is_logged_iff_a_write_fails_witness :
  existsb (fun ev => match ev with Log ERROR _ => true | _ => false end)
          (chat Stub.diabetes (Stub.fresh (Return "Try more fiber."))).2
  = true
  <-> False.
Proof.
  refine (error_is_logged_iff_a_write_fails Stub.diabetes
            (Stub.fresh (Return "Try more fiber."))
            {| Stub.users := {[ "u1" := {[ "phone_number" := PyStr "u1" ]} ]};
               Stub.chat_messages := []; Stub.save_faults := [];
               Stub.ai_answer := Return "Try more fiber." |}
            _ "Try more fiber." _ _ _).
  - intros E. vm_compute in E. discriminate E.
  - intros E. vm_compute in E. discriminate E.
  - reflexivity.
Defined.

Lemma missing_key_stops_the_script_witness :
  CheckModels.main
    {| CheckModels.GEMINI_API_KEY := Some EmptyString;
       CheckModels.configure := fun _ => Return tt;
       CheckModels.list_models := ([], None) |}
  = ([CheckModels.Print "❌ Error: GEMINI_API_KEY not found in .env file."],
     CheckModels.SystemExit 1).
Proof.
  apply (missing_key_stops_the_script
           {| CheckModels.GEMINI_API_KEY := Some EmptyString;
              CheckModels.configure := fun _ => Return tt;
              CheckModels.list_models := ([], None) |}).
  right. reflexivity.
Defined.

Lemma script_prints_the_supporting_models_witness :
  CheckModels.printed
    (CheckModels.main
       {| CheckModels.GEMINI_API_KEY := Some "AIzaSyExample";
          CheckModels.configure := fun _ => Return tt;
          CheckModels.list_models :=
            ([ {| CheckModels.name := "models/embedding-001";
                  CheckModels.supported_generation_methods :=
                    Some ["embedContent"] |};
               {| CheckModels.name := "models/gemini-pro";
                  CheckModels.supported_generation_methods :=
                    Some ["generateContent"; "countTokens"] |};
               {| CheckModels.name := "models/legacy";
                  CheckModels.supported_generation_methods := None |} ],
             Some (Exception "timed out")) |}).1
  = [ "✅ Found API Key: AIzaS... (hidden)";
      "✅ Library configured. Contacting Google...";
      CheckModels.newline
      +:+ "--- AVAILABLE MODELS (supporting generateContent) ---";
      "👉 models/gemini-pro";
      CheckModels.newline +:+ "❌ Connection Error: timed out";
      "   Check your internet connection and ensure your API Key is correct." ].
Proof.
  match goal with
  | |- CheckModels.printed (CheckModels.main ?env).1 = _ =>
      refine (script_prints_the_supporting_models env "AIzaSyExample" tt _ _
                eq_refl _ eq_refl eq_refl)
  end.
  discriminate.
Defined.

Lemma script_shows_only_five_characters_witness :
  let run k :=
    CheckModels.main
      {| CheckModels.GEMINI_API_KEY := Some k;
         CheckModels.configure := fun _ => Return tt;
         CheckModels.list_models := ([], None) |} in
  (CheckModels.printed (run "clé-é-first").1
   = CheckModels.printed (run "clé-é-second").1
   /\ (run "clé-é-first").2 = (run "clé-é-second").2)
  /\ CheckModels.printed (run "clé-é-first").1
     <> CheckModels.printed (run "clé-è-first").1
  /\ CheckModels.slice_to 5 "clé-é-first" = "clé-é".
Proof.
  intros run.
  pose (env := fun k =>
    {| CheckModels.GEMINI_API_KEY := Some k;
       CheckModels.configure := fun _ => Return tt;
       CheckModels.list_models := ([], None) |}).
  split; [|split].
  - refine (proj1 (script_shows_only_five_characters
                     (env "clé-é-first") (env "clé-é-second")
                     "clé-é-first" "clé-é-second" eq_refl eq_refl _ _)
                  eq_refl eq_refl eq_refl); discriminate.
  - refine (proj1 (proj2 (script_shows_only_five_characters
                     (env "clé-é-first") (env "clé-è-first")
                     "clé-é-first" "clé-è-first" eq_refl eq_refl _ _))
                  _); discriminate.
  - reflexivity.
Defined.

Lemma script_calls_are_guarded_witness :
  ~ In CheckModels.Call_list_models
       (CheckModels.main
          {| CheckModels.GEMINI_API_KEY := Some "AIzaSyExample";
             CheckModels.configure := fun _ => Raise (Exception "bad key");
             CheckModels.list_models := ([], None) |}).1.
Proof.
  intros Hin.
  match type of Hin with
  | In _ (CheckModels.main ?env).1 =>
      destruct (proj2 (script_calls_are_guarded env) Hin)
        as (k & r & Hk & Hc)
  end.
  injection Hk as <-. discriminate Hc.
Defined.
